(** * MyTonWallet UI components: a shallow embedding

    Three view components are modelled after their TypeScript sources:

    - [LedgerSelectWallets] (components/ledger/LedgerSelectWallets.tsx),
    - [Main]                (the dashboard screen, second document of that file),
    - [PasswordForm]        (the password / PIN entry form).

    A component is a render function from props and local state to a view
    description, together with its event handlers.  A handler is a state
    transformer that also emits the callbacks and store actions it invokes,
    in call order.  Optional props ([x?: T]) are [option]s, JavaScript
    truthiness on strings is written out ([truthy]). *)

From Stdlib Require Import String List ZArith Bool Lia.
From Stdlib Require QArith.
Import ListNotations.

#[local] Open Scope string_scope.
#[local] Open Scope list_scope.

(** ** JavaScript conventions shared by the components *)

(** [Boolean(s)] for a string: every string but the empty one is truthy. *)
Definition truthy (s : string) : bool := negb (String.eqb s "").

(** [Boolean(x)] for an optional string ([undefined] is falsy). *)
Definition truthy_opt (o : option string) : bool :=
  match o with
  | Some s => truthy s
  | None => false
  end.

(** [Boolean(b)] for an optional flag. *)
Definition flag (o : option bool) : bool :=
  match o with
  | Some b => b
  | None => false
  end.

(** [a || b] where [a] is a string and [b] an optional string. *)
Definition or_else (a : string) (b : option string) : option string :=
  if truthy a then Some a else b.

(** [a || b] where [a] is optional and [b] is always a string. *)
Definition or_default (a : option string) (b : string) : string :=
  match a with
  | Some s => if truthy s then s else b
  | None => b
  end.

(** [cond && <node/>] inside JSX: the node is rendered only when [cond] holds. *)
Definition when {A : Type} (cond : bool) (node : A) : list A :=
  if cond then [node] else [].

(** [xs.includes(x)] on an array of strings. *)
Definition includes_str (x : string) (xs : list string) : bool :=
  existsb (String.eqb x) xs.

(** [xs.includes(x)] on an array of integral numbers. *)
Definition includes (x : Z) (xs : list Z) : bool :=
  existsb (Z.eqb x) xs.

(** ** The hardware-wallet selector *)

Module LedgerSelectWallets.

(** A discovered candidate ([LedgerWalletInfo], util/ledger/types): the
    component destructures [address], [balance] and [index]. *)
Record LedgerWalletInfo : Type := {
  address : string;
  balance : string;
  index : Z
}.

(** An already linked account ([Account], global/types): only its address is
    read. *)
Record Account : Type := {
  accountAddress : string
}.

Record OwnProps : Type := {
  isActive : option bool;
  hardwareWallets : option (list LedgerWalletInfo);
  (** [Record<string, Account>], in key order *)
  accounts : option (list (string * Account));
  (** whether the optional [onCancel] callback is supplied *)
  onCancel : bool
}.

(** Local view state: [useState<number[]>([])]. *)
Record State : Type := {
  selectedAccountIndices : list Z
}.

Definition initialState : State := {| selectedAccountIndices := [] |}.

(** What a handler does to the outside world, in call order. *)
Inductive Effect : Type :=
| AfterSelectHardwareWallets (hardwareSelectedIndices : list Z)
| CallOnClose
| CallOnCancel.

(** The functions attached to the rendered elements. *)
Inductive Handler : Type :=
| HandleAccountToggle (idx : Z)
| HandleAddLedgerWallets
| OnClose
| OnCancel.

Definition ACCOUNT_ADDRESS_SHIFT : nat := 4.
Definition ACCOUNT_BALANCE_DECIMALS : nat := 3.

Definition handleAccountToggle (idx : Z) (st : State) : State :=
  if includes idx (selectedAccountIndices st)
  then {| selectedAccountIndices :=
            filter (fun id => negb (Z.eqb id idx)) (selectedAccountIndices st) |}
  else {| selectedAccountIndices := selectedAccountIndices st ++ [idx] |}.

Definition handleAddLedgerWallets (st : State) : list Effect :=
  [AfterSelectHardwareWallets (selectedAccountIndices st); CallOnClose].

Definition runHandler (h : Handler) (st : State) : State * list Effect :=
  match h with
  | HandleAccountToggle idx => (handleAccountToggle idx st, [])
  | HandleAddLedgerWallets => (st, handleAddLedgerWallets st)
  | OnClose => (st, [CallOnClose])
  | OnCancel => (st, [CallOnCancel])
  end.

Definition alreadyConnectedList (p : OwnProps) : list string :=
  map (fun kv => accountAddress (snd kv))
      (match accounts p with Some a => a | None => [] end).

Record AccountView : Type := {
  key : string;
  accountCurrent : bool;        (* class [styles.account_current] *)
  onClick : option Handler;
  accountName : string;
  accountAddressText : string;
  checkMarkActive : bool        (* class [styles.accountCheckMark_active] *)
}.

Record ButtonView : Type := {
  isPrimary : bool;
  isDisabled : bool;
  buttonOnClick : Handler;
  label : string
}.

Record View : Type := {
  headerTitle : string;
  headerOnClose : Handler;
  accountsSingle : bool;
  accountsTwo : bool;
  accountViews : list AccountView;
  cancelButton : ButtonView;
  addButton : ButtonView
}.

Section Render.

(** Collaborators of the component that live outside of it. *)
Variable lang : string -> option nat -> string.
Variable formatBalance : string -> nat -> string.
Variable shortenAddress : string -> nat -> nat -> string.

Definition renderAccount (st : State)
    (addr bal : string) (idx : Z) (isConnected : bool) : AccountView :=
  let isActiveAccount := isConnected || includes idx (selectedAccountIndices st) in
  {| key := addr;
     accountCurrent := isActiveAccount;
     onClick := if isConnected then None else Some (HandleAccountToggle idx);
     accountName := formatBalance bal ACCOUNT_BALANCE_DECIMALS;
     accountAddressText := shortenAddress addr ACCOUNT_ADDRESS_SHIFT ACCOUNT_ADDRESS_SHIFT;
     checkMarkActive := isActiveAccount |}.

Definition walletList (p : OwnProps) : list LedgerWalletInfo :=
  match hardwareWallets p with Some l => l | None => [] end.

Definition renderAccounts (p : OwnProps) (st : State) : list AccountView :=
  map (fun w => renderAccount st (address w) (balance w) (index w)
                  (includes_str (address w) (alreadyConnectedList p)))
      (walletList p).

Definition areAccountsSelected (st : State) : bool :=
  Nat.eqb (length (selectedAccountIndices st)) 0.

Definition title (st : State) : string :=
  if negb (Nat.eqb (length (selectedAccountIndices st)) 0)
  then lang "%1$d Selected" (Some (length (selectedAccountIndices st)))
  else lang "Select Ledger Wallets" None.

Definition render (p : OwnProps) (st : State) : View :=
  let shouldCloseOnCancel := negb (onCancel p) in
  {| headerTitle := title st;
     headerOnClose := OnClose;
     accountsSingle := Nat.eqb (length (walletList p)) 1;
     accountsTwo := Nat.eqb (length (walletList p)) 2;
     accountViews := renderAccounts p st;
     cancelButton :=
       {| isPrimary := false;
          isDisabled := false;
          buttonOnClick := if shouldCloseOnCancel then OnClose else OnCancel;
          label := lang (if shouldCloseOnCancel then "Cancel" else "Back") None |};
     addButton :=
       {| isPrimary := true;
          isDisabled := areAccountsSelected st;
          buttonOnClick := HandleAddLedgerWallets;
          label := lang "Add" None |} |}.

(** A click on the [pos]-th rendered entry runs the handler attached to it,
    if there is one. *)
Definition clickAccount (p : OwnProps) (pos : nat) (st : State) : State :=
  match nth_error (accountViews (render p st)) pos with
  | Some v =>
      match onClick v with
      | Some h => fst (runHandler h st)
      | None => st
      end
  | None => st
  end.

Definition clickAccounts (p : OwnProps) (clicks : list nat) (st : State) : State :=
  fold_left (fun s pos => clickAccount p pos s) clicks st.

End Render.

(** A sequence of toggles, oldest first. *)
Definition toggles (idxs : list Z) (st : State) : State :=
  fold_left (fun s i => handleAccountToggle i s) idxs st.

(** The [onBack] handed to [useHistoryBack]: [onCancel ?? onClose]. *)
Definition onBack (p : OwnProps) : Handler :=
  if onCancel p then OnCancel else OnClose.

End LedgerSelectWallets.

(** ** The dashboard screen: closing the focused token by a swipe *)

Module Main.

(** Modelled from the spec: [ContentTab] is declared in global/types, which is
    not part of the sources; the dashboard names the two tabs below. *)
Inductive ContentTab : Type :=
| Assets
| Activity.

(** Modelled from the spec: [SwipeDirection] is declared in
    util/captureEvents, which is not part of the sources; a gesture has one of
    four directions and the dashboard only tests for [Right]. *)
Inductive SwipeDirection : Type :=
| Up
| Down
| Left
| Right.

(** Store actions the screen dispatches, with their payloads. *)
Inductive Action : Type :=
| SelectToken (slug : option string)
| SetActiveContentTab (tab : ContentTab)
| SetSwapTokenOut (tokenSlug : string)
| ChangeTransferToken (tokenSlug : string).

(** What the swipe effect reads besides the props. *)
Record Env : Type := {
  IS_TOUCH_ENV : bool;
  isPortrait : bool;
  (** [portraitContainerRef.current] is an element *)
  portraitContainerMounted : bool
}.

Record StateProps : Type := {
  currentTokenSlug : option string
}.

Definition handleTokenCardClose : list Action :=
  [SelectToken None; SetActiveContentTab Assets].

(** The effect keyed on [currentTokenSlug]. *)
Definition tokenSelectionEffect (p : StateProps) : list Action :=
  match currentTokenSlug p with
  | Some slug =>
      if truthy slug
      then [SetActiveContentTab Activity; SetSwapTokenOut slug; ChangeTransferToken slug]
      else []
  | None => []
  end.

(** The [onSwipe] option handed to [captureEvents]: the dispatched actions and
    the value returned to the gesture dispatcher. *)
Definition onSwipe (direction : SwipeDirection) : list Action * bool :=
  match direction with
  | Right => (handleTokenCardClose, true)
  | _ => ([], false)
  end.

(** The swipe effect: the listener it registers, if any. *)
Definition swipeEffect (env : Env) (p : StateProps)
  : option (SwipeDirection -> list Action * bool) :=
  if negb (IS_TOUCH_ENV env) || negb (isPortrait env)
     || negb (portraitContainerMounted env) || negb (truthy_opt (currentTokenSlug p))
  then None
  else Some onSwipe.

(** A swipe on the portrait container reaches the registered listener. *)
Definition deliverSwipe (env : Env) (p : StateProps) (direction : SwipeDirection)
  : option (list Action * bool) :=
  option_map (fun listener => listener direction) (swipeEffect env p).

(** *** Staking entry points *)

(** What the staking handlers reach: actions of the store and the call that
    asks the main surface to open a sheet. *)
Inductive Effect : Type :=
| OpenStakingInfo
| StartStaking
| BottomSheetOpenInMain (key : string).

Record StakingProps : Type := {
  isStakingActive : bool;
  isUnstakeRequested : option bool
}.

Definition handleOpenStakingInfo (IS_DELEGATED_BOTTOM_SHEET : bool) : list Effect :=
  if IS_DELEGATED_BOTTOM_SHEET
  then [BottomSheetOpenInMain "staking-info"]
  else [OpenStakingInfo].

Definition handleEarnClick (p : StakingProps) : list Effect :=
  if isStakingActive p || flag (isUnstakeRequested p)
  then [OpenStakingInfo]
  else [StartStaking].

(** *** The sticky card *)

(** An [IntersectionObserverEntry], as far as the callbacks read it.  The
    rectangle's coordinates are finite doubles, hence rationals, and are only
    compared. *)
Record ObserverEntry : Type := {
  isIntersecting : bool;
  left : QArith_base.Q;
  width : QArith_base.Q
}.

Definition Qzero : QArith_base.Q := QArith_base.Qmake 0 1.

(** [a < b] on coordinates. *)
Definition Qltb (a b : QArith_base.Q) : bool := negb (QArith_base.Qle_bool b a).

(** The callback of the first observer: the value handed to
    [setCanRenderStickyCard], or [None] when destructuring [entries[0]]
    throws because there is no entry. *)
Definition stickyCardObserver (entries : list ObserverEntry) : option bool :=
  match entries with
  | [] => None
  | entry :: _ =>
      Some (Nat.ltb 0 (List.length entries)
            && negb (isIntersecting entry)
            && QArith_base.Qle_bool Qzero (left entry)
            && Qltb (left entry) (width entry))
  end.

(** The callback of the second observer: the value handed to
    [setShouldRenderDarkStatusBar]. *)
Definition cardTopSideObserver (entries : list ObserverEntry) : option bool :=
  match entries with
  | [] => None
  | entry :: _ => Some (negb (isIntersecting entry))
  end.

(** What the observing effect does when it runs. *)
Record ObservingEffect : Type := {
  (** [setCanRenderStickyCard(false)] is called *)
  resetsStickyCard : bool;
  (** the two observers watch the card until the cleanup *)
  observesCard : bool
}.

Definition observingEffect (portrait : bool) (isActive : option bool)
    (cardMounted : bool) : ObservingEffect :=
  if negb portrait || negb (flag isActive)
  then {| resetsStickyCard := true; observesCard := false |}
  else {| resetsStickyCard := false; observesCard := cardMounted |}.

(** *** The layout *)

Record LayoutProps : Type := {
  layoutIsStakingActive : bool;
  layoutIsUnstakeRequested : option bool;
  isTestnet : option bool;
  isLedger : option bool;
  isStakingInfoModalOpen : option bool
}.

Inductive LayoutNode : Type :=
| Warnings
| Card (observed : bool) (forceCloseAccountSelector : option bool)
| StickyCard
| PortraitActions (hasStaking : bool) (testnet unstakeRequested ledger : option bool)
| LandscapeActions (hasStaking : bool) (unstakeRequested ledger : option bool)
| Content
| StakeModal
| StakingInfoModal (isOpen : option bool)
| ReceiveModal (isOpen : bool)
| UnstakingModal.

Definition renderPortraitLayout (p : LayoutProps) (shouldRenderStickyCard : bool)
  : list LayoutNode :=
  [Warnings; Card true (Some shouldRenderStickyCard)]
  ++ when shouldRenderStickyCard StickyCard
  ++ [PortraitActions (layoutIsStakingActive p) (isTestnet p)
        (layoutIsUnstakeRequested p) (isLedger p);
      Content].

Definition renderLandscapeLayout (p : LayoutProps) : list LayoutNode :=
  [Warnings; Card false None;
   LandscapeActions (layoutIsStakingActive p) (layoutIsUnstakeRequested p) (isLedger p);
   Content].

(** [shouldRenderStickyCard] is what [useShowTransition] makes of the sticky
    flag; [isReceiveModalOpened] is the local flag of [useFlag]. *)
Definition render (IS_DELEGATED_BOTTOM_SHEET portrait : bool) (p : LayoutProps)
    (shouldRenderStickyCard isReceiveModalOpened : bool) : list LayoutNode :=
  (if negb IS_DELEGATED_BOTTOM_SHEET
   then if portrait
        then renderPortraitLayout p shouldRenderStickyCard
        else renderLandscapeLayout p
   else [])
  ++ [StakeModal;
      StakingInfoModal (isStakingInfoModalOpen p);
      ReceiveModal isReceiveModalOpened;
      UnstakingModal].

Definition countNodes (f : LayoutNode -> bool) (view : list LayoutNode) : nat :=
  List.length (filter f view).

Definition isCard (n : LayoutNode) : bool :=
  match n with Card _ _ => true | _ => false end.

Definition isStickyCard (n : LayoutNode) : bool :=
  match n with StickyCard => true | _ => false end.

Definition isReceiveEntry (n : LayoutNode) : bool :=
  match n with PortraitActions _ _ _ _ => true | _ => false end.

Definition isModal (n : LayoutNode) : bool :=
  match n with
  | StakeModal | StakingInfoModal _ | ReceiveModal _ | UnstakingModal => true
  | _ => false
  end.

(** The [forceCloseAccountSelector] props of the rendered cards. *)
Definition forceCloseFlags (view : list LayoutNode) : list (option bool) :=
  flat_map (fun n => match n with
                     | Card _ force => [force]
                     | _ => []
                     end) view.

End Main.

(** ** The password / PIN entry form *)

Module PasswordForm.

Inductive OperationType : Type :=
| Transfer
| Staking
| Unstaking
| Swap.

(** Modelled from the spec: [AuthConfig] is declared in util/authApi/types,
    which is not part of the sources.  The specification gives it as a tagged
    variant over password-only, platform-biometrics and native-biometrics; the
    form only compares the tag with ['password'] and ['native-biometrics']. *)
Inductive AuthKind : Type :=
| KindPassword
| KindPlatformBiometrics
| KindNativeBiometrics.

Record AuthConfig : Type := {
  kind : AuthKind
}.

Definition AuthKind_eqb (a b : AuthKind) : bool :=
  match a, b with
  | KindPassword, KindPassword => true
  | KindPlatformBiometrics, KindPlatformBiometrics => true
  | KindNativeBiometrics, KindNativeBiometrics => true
  | _, _ => false
  end.

(** [global.settings], as far as the form reads it. *)
Record Settings : Type := {
  settingsIsPasswordNumeric : option bool;
  settingsAuthConfig : option AuthConfig
}.

Record OwnProps : Type := {
  isActive : bool;
  isLoading : option bool;
  operationType : option OperationType;
  cancelLabel : option string;
  submitLabel : string;
  stickerSize : option nat;
  placeholder : option string;
  error : option string;
  help : option string;
  containerClassName : option string;
  withCloseButton : option bool;
  (** the nested content handed over by the parent, kept opaque *)
  children : option string;
  (** whether the [onCancel] callback is supplied: the form tests it *)
  onCancel : bool
}.

Record StateProps : Type := {
  isPasswordNumeric : option bool;
  isBiometricAuthEnabled : bool;
  isNativeBiometricAuthEnabled : bool;
  authConfig : option AuthConfig
}.

(** The selector given to [withGlobal]. *)
Definition mapStateToProps (settings : Settings) : StateProps :=
  {| isPasswordNumeric := settingsIsPasswordNumeric settings;
     isBiometricAuthEnabled :=
       match settingsAuthConfig settings with
       | Some c => negb (AuthKind_eqb (kind c) KindPassword)
       | None => false
       end;
     isNativeBiometricAuthEnabled :=
       match settingsAuthConfig settings with
       | Some c => AuthKind_eqb (kind c) KindNativeBiometrics
       | None => false
       end;
     authConfig := settingsAuthConfig settings |}.

(** Capability probes, environment constants and the screen class. *)
Record Env : Type := {
  isNativeBiometricAuthSupported : bool;
  isFaceIdAvailable : bool;
  isTouchIdAvailable : bool;
  (** Modelled from the spec: the constant of util/windowEnvironment is not
      part of the sources; the specification reads it as "the UI is running
      inside a delegated secondary surface". *)
  CAN_DELEGATE_BOTTOM_SHEET : bool;
  isSmallHeight : bool;
  PIN_LENGTH : nat
}.

Definition STICKER_SIZE : nat := 180.
Definition APPEAR_ANIMATION_DURATION_MS : nat := 300.

(** Local state: the two [useState<string>('')] cells. *)
Record State : Type := {
  password : string;
  localError : string
}.

Definition initialState : State := {| password := ""; localError := "" |}.

(** Calls of the callbacks received through the props. *)
Inductive Call : Type :=
| OnSubmit (secret : string)
| OnUpdate
| OnCancel.

(** *** Handlers: state, emitted calls and exceptions *)

(** A thrown value, as far as the form inspects it.  The [catch] clause
    reads [err.message]: on [null] and [undefined] that read throws itself;
    on any other value it yields the message, which may be missing or
    empty. *)
Inductive JsError : Type :=
| ThrownNullish
| ThrownValue (message : option string).

Inductive Completion (A : Type) : Type :=
| Returned (a : A)
| Thrown (err : JsError).

Arguments Returned {A} a.
Arguments Thrown {A} err.

(** A handler body: from the current local state to how it completes, the
    state left behind and the callbacks called, oldest first. *)
Definition M (A : Type) : Type := State -> Completion A * State * list Call.

Definition ret {A : Type} (a : A) : M A :=
  fun st => (Returned a, st, []).

Definition bind {A B : Type} (m : M A) (k : A -> M B) : M B :=
  fun st =>
    match m st with
    | (Returned a, st1, calls1) =>
        match k a st1 with
        | (c, st2, calls2) => (c, st2, calls1 ++ calls2)
        end
    | (Thrown err, st1, calls1) => (Thrown err, st1, calls1)
    end.

Definition throw {A : Type} (err : JsError) : M A :=
  fun st => (Thrown err, st, []).

(** [try { body } catch (err) { handler(err) }] *)
Definition tryCatch {A : Type} (body : M A) (handler : JsError -> M A) : M A :=
  fun st =>
    match body st with
    | (Returned a, st1, calls1) => (Returned a, st1, calls1)
    | (Thrown err, st1, calls1) =>
        match handler err st1 with
        | (c, st2, calls2) => (c, st2, calls1 ++ calls2)
        end
    end.

Definition setPassword (value : string) : M unit :=
  fun st => (Returned tt, {| password := value; localError := localError st |}, []).

Definition setLocalError (value : string) : M unit :=
  fun st => (Returned tt, {| password := password st; localError := value |}, []).

(** Calling a callback of the parent, which returns normally. *)
Definition call (c : Call) : M unit :=
  fun st => (Returned tt, st, [c]).

(** How a call of a parent's callback completes. *)
Inductive CallOutcome : Type :=
| Returns
| Throws (err : JsError).

(** Calling a callback inside a [try] block, where it matters that the
    callback may throw. *)
Definition callWith (c : Call) (completes : CallOutcome) : M unit :=
  fun st =>
    (match completes with
     | Returns => Returned tt
     | Throws err => Thrown err
     end, st, [c]).

(** The [TypeError] the engine raises when a property of [null] or
    [undefined] is read; the wording of its message is the engine's. *)
Definition nullishTypeError : JsError :=
  ThrownValue (Some "Cannot read properties of undefined (reading 'message')").

(** [err.message] *)
Definition readMessage (err : JsError) : M (option string) :=
  match err with
  | ThrownNullish => throw nullishTypeError
  | ThrownValue message => ret message
  end.

Notation "x <- m ;; k" := (bind m (fun x => k))
  (at level 61, m at next level, right associativity).
Notation "m ;;; k" := (bind m (fun _ => k))
  (at level 61, right associativity).

(** How the awaited [authApi.getPassword(authConfig)] settles: it resolves
    with a secret or with nothing, or it rejects with an error. *)
Inductive GetPasswordOutcome : Type :=
| Resolves (biometricPassword : option string)
| Rejects (err : JsError).

Definition getPassword (outcome : GetPasswordOutcome) : M (option string) :=
  match outcome with
  | Resolves r => ret r
  | Rejects err => throw err
  end.

(** The functions attached to rendered elements. *)
Inductive Handler : Type :=
| HOnCancel
| HOnSubmit
| HSetPassword
| HHandleBiometrics
| HHandleClearError
| HHandleInput
| HHandleSubmit.

(** Work queued by an effect: what to run and after how many milliseconds. *)
Inductive Task : Type :=
| RunHandleBiometrics.

Record Scheduled : Type := {
  delayMs : nat;
  task : Task
}.

(** Whether a queued task has run once [elapsedMs] have passed. *)
Definition hasFired (elapsedMs : nat) (s : Scheduled) : bool :=
  Nat.leb (delayMs s) elapsedMs.

Record KeyboardListeners : Type := {
  onEnter : Handler
}.

(** The rendered elements, in document order. *)
Inductive Node : Type :=
| CloseButton (ariaLabel : string) (onClick : option Handler)
| GuardSticker (play : bool)
| PinPadTitle (text : string)
| Children (content : string)
| PinPad (title : string) (isError : bool) (length : nat) (value : string)
         (onBiometricsClick : option Handler)
         (onChange onClearError onSubmit : Handler)
| HoldTonSticker (play : bool) (size : nat)
| Verify (text : string)
| Input (numeric : bool) (inputError : string) (inputPlaceholder : option string)
        (value : string) (onInput : Handler) (maxLength : option nat)
| ErrorLine (text : string)
| HelpLabel (text : string)
| CancelButton (onClick : option Handler) (loading disabled : bool) (label : string)
| SubmitButton (loading disabled : bool) (onClick : option Handler) (label : string).

Section Component.

(** The localisation function of [useLang]. *)
Variable lang : string -> string.

Variable env : Env.

Definition isSubmitDisabled (st : State) : bool :=
  Nat.eqb (String.length (password st)) 0.

(** Effect keyed on [isActive]. *)
Definition activationEffect (own : OwnProps) : M unit :=
  if isActive own
  then setLocalError "" ;;; setPassword ""
  else ret tt.

(** [submitted] is how the parent's [onSubmit] completes when the handler
    calls it: that call sits inside the [try] block. *)
Definition handleBiometrics (outcome : GetPasswordOutcome) (submitted : CallOutcome)
  : M unit :=
  tryCatch
    (biometricPassword <- getPassword outcome ;;
     match biometricPassword with
     | Some secret =>
         if negb (truthy secret)
         then setLocalError "Declined"
         else callWith (OnSubmit secret) submitted
     | None => setLocalError "Declined"
     end)
    (fun err =>
       message <- readMessage err ;;
       setLocalError (or_default message (lang "Something went wrong"))).

(** Effect keyed on [isActive] and [isBiometricAuthEnabled]: the tasks it
    queues. *)
Definition autoTriggerEffect (own : OwnProps) (sp : StateProps) : list Scheduled :=
  if CAN_DELEGATE_BOTTOM_SHEET env || negb (isActive own)
     || negb (isBiometricAuthEnabled sp)
  then []
  else [{| delayMs := APPEAR_ANIMATION_DURATION_MS; task := RunHandleBiometrics |}].

Definition handleClearError : M unit :=
  setLocalError "" ;;; call OnUpdate.

Definition handleInput (own : OwnProps) (value : string) : M unit :=
  setPassword value ;;;
  if truthy_opt (error own) then call OnUpdate else ret tt.

(** [password] is the value of the render the callback was taken from. *)
Definition handleSubmit (rendered : State) : M unit :=
  call (OnSubmit (password rendered)).

(** Effect keyed on [isSubmitDisabled]: the keyboard listener it keeps
    registered, if any. *)
Definition enterKeyEffect (st : State) : option KeyboardListeners :=
  if isSubmitDisabled st
  then None
  else Some {| onEnter := HHandleSubmit |}.

Definition getPinPadTitle (own : OwnProps) : string :=
  match operationType own with
  | Some Transfer => "Confirm Transaction"
  | Some Staking => "Confirm Staking"
  | Some Unstaking => "Confirm Unstaking"
  | Some Swap => "Confirm Swap"
  | None => "Confirm Operation"
  end.

Definition childrenNodes (own : OwnProps) : list Node :=
  match children own with
  | Some content => [Children content]
  | None => []
  end.

(** The branch taken when [getIsNativeBiometricAuthSupported()] holds. *)
Definition renderPinPad (own : OwnProps) (sp : StateProps) (st : State) : list Node :=
  let hasError := truthy_opt (or_else (localError st) (error own)) in
  let title := getPinPadTitle own in
  let actionName :=
    lang (if negb (isNativeBiometricAuthEnabled sp)
          then "Enter code"
          else if isFaceIdAvailable env
               then "Enter code or use Face ID"
               else if isTouchIdAvailable env
                    then "Enter code or use Touch ID"
                    else "Enter code or use biometrics") in
  when (flag (withCloseButton own))
       (CloseButton (lang "Close") (if onCancel own then Some HOnCancel else None))
  ++ [GuardSticker (isActive own)]
  ++ when (negb (isSmallHeight env)) (PinPadTitle (lang title))
  ++ childrenNodes own
  ++ [PinPad
        (lang (if hasError
               then match or_else (localError st) (error own) with
                    | Some shown => shown
                    | None => ""      (* not reached: [hasError] holds *)
                    end
               else if isSmallHeight env then title else actionName))
        hasError
        (PIN_LENGTH env)
        (password st)
        (if isNativeBiometricAuthEnabled sp then Some HHandleBiometrics else None)
        HSetPassword
        HHandleClearError
        HOnSubmit].

Definition isTransfer (o : option OperationType) : bool :=
  match o with
  | Some Transfer => true
  | _ => false
  end.

(** The branch taken otherwise. *)
Definition renderPasswordField (own : OwnProps) (sp : StateProps) (st : State)
  : list Node :=
  [HoldTonSticker (isActive own)
     (match stickerSize own with Some n => n | None => STICKER_SIZE end)]
  ++ childrenNodes own
  ++ [if isBiometricAuthEnabled sp
      then Verify (lang (if isTransfer (operationType own)
                         then "Please confirm transaction using biometrics"
                         else "Please confirm operation using biometrics"))
      else Input (flag (isPasswordNumeric sp))
                 (if truthy_opt (error own)
                  then lang (match error own with
                             | Some e => e
                             | None => ""   (* not reached: [error] is truthy *)
                             end)
                  else localError st)
                 (placeholder own)
                 (password st)
                 HHandleInput
                 (if flag (isPasswordNumeric sp) then Some (PIN_LENGTH env) else None)]
  ++ when (truthy (localError st)) (ErrorLine (lang (localError st)))
  ++ match help own with
     | Some h => when (truthy h && negb (truthy_opt (error own))) (HelpLabel h)
     | None => []
     end
  ++ when (onCancel own)
       (CancelButton
          (if isBiometricAuthEnabled sp && flag (isLoading own) then None else Some HOnCancel)
          (flag (isLoading own) && isBiometricAuthEnabled sp)
          (flag (isLoading own) && negb (isBiometricAuthEnabled sp))
          (or_default (cancelLabel own) (lang "Cancel")))
  ++ when (negb (isBiometricAuthEnabled sp))
       (SubmitButton
          (flag (isLoading own))
          (isSubmitDisabled st)
          (if negb (flag (isLoading own)) then Some HHandleSubmit else None)
          (or_default (Some (submitLabel own)) (lang "Send"))).

Definition render (own : OwnProps) (sp : StateProps) (st : State) : list Node :=
  if isNativeBiometricAuthSupported env
  then renderPinPad own sp st
  else renderPasswordField own sp st.

(** *** The render cycle *)

(** An effect runs after the first render and after each render whose
    dependencies differ from those of the previous one. *)
Definition depsChanged {A : Type} (eqb : A -> A -> bool)
    (prev : option A) (cur : A) : bool :=
  match prev with
  | Some p => negb (eqb p cur)
  | None => true
  end.

Definition activationDeps (own : OwnProps) : bool := isActive own.

Definition autoTriggerDeps (own : OwnProps) (sp : StateProps) : bool * bool :=
  (isActive own, isBiometricAuthEnabled sp).

Definition pair_eqb (a b : bool * bool) : bool :=
  Bool.eqb (fst a) (fst b) && Bool.eqb (snd a) (snd b).

(** The state left by the effects of one render, and the tasks they queue.
    [prev] holds the props of the previous render, if there was one. *)
Definition commit (prev : option (OwnProps * StateProps))
    (own : OwnProps) (sp : StateProps) (st : State) : State * list Scheduled :=
  let st1 :=
    if depsChanged Bool.eqb (option_map (fun p => activationDeps (fst p)) prev)
                   (activationDeps own)
    then snd (fst (activationEffect own st))
    else st in
  let queued :=
    if depsChanged pair_eqb
                   (option_map (fun p => autoTriggerDeps (fst p) (snd p)) prev)
                   (autoTriggerDeps own sp)
    then autoTriggerEffect own sp
    else [] in
  (st1, queued).

(** The tasks queued over a run of renders, the first one being the mount. *)
Fixpoint renders (prev : option (OwnProps * StateProps))
    (rs : list (OwnProps * StateProps)) (st : State) : State * list Scheduled :=
  match rs with
  | [] => (st, [])
  | r :: rest =>
      let '(st1, queued) := commit prev (fst r) (snd r) st in
      let '(st2, later) := renders (Some r) rest st1 in
      (st2, queued ++ later)
  end.

(** *** Reading a view *)

Definition isPinPad (n : Node) : bool :=
  match n with PinPad _ _ _ _ _ _ _ _ => true | _ => false end.

Definition isPasswordInput (n : Node) : bool :=
  match n with Input _ _ _ _ _ _ => true | _ => false end.

Definition isBiometricPrompt (n : Node) : bool :=
  match n with Verify _ => true | _ => false end.

Definition isEntryUi (n : Node) : bool :=
  isPinPad n || isPasswordInput n || isBiometricPrompt n.

Definition count (f : Node -> bool) (view : list Node) : nat :=
  List.length (filter f view).

(** The [disabled] flags of the rendered submit buttons. *)
Definition submitDisabledFlags (view : list Node) : list bool :=
  flat_map (fun n => match n with
                     | SubmitButton _ disabled _ _ => [disabled]
                     | _ => []
                     end) view.

(** The titles of the rendered PIN pads. *)
Definition pinPadTitles (view : list Node) : list string :=
  flat_map (fun n => match n with
                     | PinPad title _ _ _ _ _ _ _ => [title]
                     | _ => []
                     end) view.

(** The error flags ([type] is ['error']) of the rendered PIN pads. *)
Definition pinPadErrorFlags (view : list Node) : list bool :=
  flat_map (fun n => match n with
                     | PinPad _ isError _ _ _ _ _ _ => [isError]
                     | _ => []
                     end) view.

(** The [error] props of the rendered password inputs. *)
Definition inputErrors (view : list Node) : list string :=
  flat_map (fun n => match n with
                     | Input _ inputError _ _ _ _ => [inputError]
                     | _ => []
                     end) view.

(** The texts of the rendered local-error lines. *)
Definition errorLines (view : list Node) : list string :=
  flat_map (fun n => match n with
                     | ErrorLine text => [text]
                     | _ => []
                     end) view.

(** The function behind a handler name.  [rendered] is the state of the
    render the element was taken from, [arg] the string the element passes
    (the typed value, the entered code), [outcome] how a biometric fetch
    started by the handler settles and [submitted] how the [onSubmit] called
    after that fetch completes. *)
Definition runHandler (own : OwnProps) (rendered : State) (h : Handler)
    (arg : string) (outcome : GetPasswordOutcome) (submitted : CallOutcome) : M unit :=
  match h with
  | HOnCancel => call OnCancel
  | HOnSubmit => call (OnSubmit arg)
  | HSetPassword => setPassword arg
  | HHandleBiometrics => handleBiometrics outcome submitted
  | HHandleClearError => handleClearError
  | HHandleInput => handleInput own arg
  | HHandleSubmit => handleSubmit rendered
  end.

Definition isSubmitButton (n : Node) : bool :=
  match n with SubmitButton _ _ _ _ => true | _ => false end.

Definition isCancelButton (n : Node) : bool :=
  match n with CancelButton _ _ _ _ => true | _ => false end.

Definition isCloseButton (n : Node) : bool :=
  match n with CloseButton _ _ => true | _ => false end.


(** A button that has a click handler and is not disabled. *)
Definition isActionable (n : Node) : bool :=
  match n with
  | CloseButton _ (Some _) => true
  | CancelButton (Some _) _ disabled _ => negb disabled
  | SubmitButton _ disabled (Some _) _ => negb disabled
  | _ => false
  end.

(** The click handlers of the rendered submit buttons. *)
Definition submitHandlers (view : list Node) : list (option Handler) :=
  flat_map (fun n => match n with
                     | SubmitButton _ _ onClick _ => [onClick]
                     | _ => []
                     end) view.

(** The [onBiometricsClick] props of the rendered PIN pads. *)
Definition biometricsHandlers (view : list Node) : list (option Handler) :=
  flat_map (fun n => match n with
                     | PinPad _ _ _ _ onBiometricsClick _ _ _ => [onBiometricsClick]
                     | _ => []
                     end) view.

(** The texts of the rendered operation titles above the PIN pad. *)
Definition headerTitles (view : list Node) : list string :=
  flat_map (fun n => match n with
                     | PinPadTitle text => [text]
                     | _ => []
                     end) view.

(** The values shown by the rendered password inputs and PIN pads. *)
Definition shownValues (view : list Node) : list string :=
  flat_map (fun n => match n with
                     | Input _ _ _ value _ _ => [value]
                     | PinPad _ _ _ value _ _ _ _ => [value]
                     | _ => []
                     end) view.

(** The texts of the rendered help labels. *)
Definition helpLabels (view : list Node) : list string :=
  flat_map (fun n => match n with
                     | HelpLabel text => [text]
                     | _ => []
                     end) view.

End Component.

End PasswordForm.

(** * Properties *)

(** ** JavaScript conventions *)

Lemma truthy_true_iff (s : string) : truthy s = true <-> s <> "".
Proof.
  unfold truthy. rewrite negb_true_iff.
  destruct (String.eqb_spec s ""); split; congruence.
Qed.

Lemma includes_In (x : Z) (xs : list Z) : includes x xs = true <-> In x xs.
Proof.
  unfold includes. rewrite existsb_exists. split.
  - intros [y [Hin Heq]]. apply Z.eqb_eq in Heq. now subst.
  - intros Hin. exists x. split; [assumption | apply Z.eqb_refl].
Qed.

Lemma includes_false_iff (x : Z) (xs : list Z) : includes x xs = false <-> ~ In x xs.
Proof.
  rewrite <- includes_In. destruct (includes x xs); split; congruence.
Qed.

Lemma includes_str_In (x : string) (xs : list string) :
  includes_str x xs = true <-> In x xs.
Proof.
  unfold includes_str. rewrite existsb_exists. split.
  - intros [y [Hin Heq]]. apply String.eqb_eq in Heq. now subst.
  - intros Hin. exists x. split; [assumption | apply String.eqb_refl].
Qed.

(** ** The hardware-wallet selector *)

Module LedgerSelectWalletsFacts.
Import LedgerSelectWallets.

Lemma toggle_present (i : Z) (st : State) :
  includes i (selectedAccountIndices st) = true ->
  selectedAccountIndices (handleAccountToggle i st)
  = filter (fun id => negb (Z.eqb id i)) (selectedAccountIndices st).
Proof. intros H. unfold handleAccountToggle. now rewrite H. Qed.

Lemma toggle_absent (i : Z) (st : State) :
  includes i (selectedAccountIndices st) = false ->
  selectedAccountIndices (handleAccountToggle i st) = selectedAccountIndices st ++ [i].
Proof. intros H. unfold handleAccountToggle. now rewrite H. Qed.

Lemma In_without (i j : Z) (l : list Z) :
  In j (filter (fun id => negb (Z.eqb id i)) l) <-> In j l /\ j <> i.
Proof.
  rewrite filter_In, negb_true_iff, Z.eqb_neq. reflexivity.
Qed.

Lemma In_with (i j : Z) (l : list Z) :
  In j (l ++ [i]) <-> In j l \/ j = i.
Proof.
  rewrite in_app_iff. simpl. intuition congruence.
Qed.

Lemma toggle_In (i j : Z) (st : State) :
  In j (selectedAccountIndices (handleAccountToggle i st)) <->
  if includes i (selectedAccountIndices st)
  then In j (selectedAccountIndices st) /\ j <> i
  else In j (selectedAccountIndices st) \/ j = i.
Proof.
  destruct (includes i (selectedAccountIndices st)) eqn:E.
  - rewrite (toggle_present _ _ E). apply In_without.
  - rewrite (toggle_absent _ _ E). apply In_with.
Qed.

Lemma toggle_NoDup (i : Z) (st : State) :
  NoDup (selectedAccountIndices st) ->
  NoDup (selectedAccountIndices (handleAccountToggle i st)).
Proof.
  intros Hnd. destruct (includes i (selectedAccountIndices st)) eqn:E.
  - rewrite (toggle_present _ _ E). now apply NoDup_filter.
  - rewrite (toggle_absent _ _ E). apply includes_false_iff in E.
    apply NoDup_app; [assumption | repeat constructor; intros [] | ].
    intros a Ha [<- | []]. contradiction.
Qed.

Lemma toggles_NoDup (idxs : list Z) (st : State) :
  NoDup (selectedAccountIndices st) ->
  NoDup (selectedAccountIndices (toggles idxs st)).
Proof.
  revert st. induction idxs as [| i idxs IH]; intros st Hnd; simpl.
  - exact Hnd.
  - apply IH. now apply toggle_NoDup.
Qed.

Section WithCollaborators.

Variable lang : string -> option nat -> string.
Variable formatBalance : string -> nat -> string.
Variable shortenAddress : string -> nat -> nat -> string.

#[local] Abbreviation render := (render lang formatBalance shortenAddress).
#[local] Abbreviation clickAccount := (clickAccount lang formatBalance shortenAddress).
#[local] Abbreviation clickAccounts := (clickAccounts lang formatBalance shortenAddress).

Lemma nth_accountViews (p : OwnProps) (st : State) (n : nat) :
  nth_error (accountViews (render p st)) n
  = option_map
      (fun w => renderAccount formatBalance shortenAddress st
                  (address w) (balance w) (index w)
                  (includes_str (address w) (alreadyConnectedList p)))
      (nth_error (walletList p) n).
Proof.
  simpl. unfold renderAccounts. apply nth_error_map.
Qed.

(** A click either leaves the selection alone or toggles one index. *)
Lemma clickAccount_cases (p : OwnProps) (pos : nat) (st : State) :
  clickAccount p pos st = st
  \/ exists i, clickAccount p pos st = handleAccountToggle i st.
Proof.
  unfold LedgerSelectWallets.clickAccount.
  rewrite nth_accountViews.
  destruct (nth_error (walletList p) pos) as [w |]; simpl; [| now left].
  destruct (includes_str (address w) (alreadyConnectedList p)); simpl.
  - now left.
  - right. now exists (index w).
Qed.

Lemma clickAccounts_NoDup (p : OwnProps) (clicks : list nat) (st : State) :
  NoDup (selectedAccountIndices st) ->
  NoDup (selectedAccountIndices (clickAccounts p clicks st)).
Proof.
  revert st. induction clicks as [| pos clicks IH]; intros st Hnd; simpl.
  - exact Hnd.
  - apply IH. destruct (clickAccount_cases p pos st) as [-> | [i ->]].
    + exact Hnd.
    + now apply toggle_NoDup.
Qed.

(** C4: one toggle of [i] adds [i] to the selection when it was absent and
    removes it when it was present, and two toggles of [i] in a row give back
    a selection with exactly the members it had before. *)
Theorem toggle_is_involution_on_membership :
  forall (st : State) (i : Z),
    (forall j,
        In j (selectedAccountIndices (handleAccountToggle i st)) <->
        if includes i (selectedAccountIndices st)
        then In j (selectedAccountIndices st) /\ j <> i
        else In j (selectedAccountIndices st) \/ j = i)
    /\ (forall j,
        In j (selectedAccountIndices (handleAccountToggle i (handleAccountToggle i st)))
        <-> In j (selectedAccountIndices st)).
Proof.
  intros st i. split; [intros j; apply toggle_In |].
  intros j. rewrite toggle_In.
  destruct (includes i (selectedAccountIndices st)) eqn:E.
  - assert (Hout : includes i (selectedAccountIndices (handleAccountToggle i st)) = false).
    { apply includes_false_iff. rewrite toggle_In, E. tauto. }
    rewrite Hout, toggle_In, E. apply includes_In in E.
    destruct (Z.eq_dec j i) as [-> |]; tauto.
  - assert (Hin : includes i (selectedAccountIndices (handleAccountToggle i st)) = true).
    { apply includes_In. rewrite toggle_In, E. now right. }
    rewrite Hin, toggle_In, E. apply includes_false_iff in E.
    destruct (Z.eq_dec j i) as [-> |]; tauto.
Qed.

(** C6: a candidate whose address is already linked is rendered without a
    click handler and in the active state (current class and active check
    mark), whatever clicks came before and whatever the selection holds; a
    click on it leaves the selection as it is. *)
Theorem connected_entry_is_fixed_active :
  forall (p : OwnProps) (st : State) (clicks : list nat) (n : nat) (w : LedgerWalletInfo),
    nth_error (walletList p) n = Some w ->
    In (address w) (alreadyConnectedList p) ->
    let st' := clickAccounts p clicks st in
    exists v,
      nth_error (accountViews (render p st')) n = Some v
      /\ key v = address w
      /\ onClick v = None
      /\ accountCurrent v = true
      /\ checkMarkActive v = true
      /\ clickAccount p n st' = st'.
Proof.
  intros p st clicks n w Hw Hconn st'.
  apply includes_str_In in Hconn.
  eexists. rewrite nth_accountViews, Hw. simpl.
  split; [reflexivity |].
  unfold LedgerSelectWallets.clickAccount.
  rewrite nth_accountViews, Hw. simpl.
  rewrite Hconn. simpl. repeat split.
Qed.

(** C10: the selection starts empty and after any sequence of toggles (or of
    clicks on rendered entries) it holds no index twice; its length is the
    number of distinct selected indices, which is the count the header title
    shows when something is selected. *)
Theorem selection_has_no_duplicates :
  forall (p : OwnProps) (idxs : list Z) (clicks : list nat),
    selectedAccountIndices initialState = []
    /\ NoDup (selectedAccountIndices (clickAccounts p clicks initialState))
    /\ let st := toggles idxs initialState in
       NoDup (selectedAccountIndices st)
       /\ length (selectedAccountIndices st)
          = length (nodup Z.eq_dec (selectedAccountIndices st))
       /\ headerTitle (render p st)
          = match selectedAccountIndices st with
            | [] => lang "Select Ledger Wallets" None
            | _ :: _ =>
                lang "%1$d Selected"
                     (Some (length (nodup Z.eq_dec (selectedAccountIndices st))))
            end.
Proof.
  intros p idxs clicks.
  split; [reflexivity |].
  split; [apply clickAccounts_NoDup; constructor |].
  intros st.
  assert (Hnd : NoDup (selectedAccountIndices st))
    by (apply toggles_NoDup; constructor).
  split; [exact Hnd |].
  rewrite (nodup_fixed_point Z.eq_dec Hnd).
  split; [reflexivity |].
  simpl. unfold title. destruct (selectedAccountIndices st); reflexivity.
Qed.

End WithCollaborators.

Lemma connected_entry_is_fixed_active_witness :
  let lang := fun (key : string) (_ : option nat) => key in
  let formatBalance := fun (amount : string) (_ : nat) => amount in
  let shortenAddress := fun (addr : string) (_ _ : nat) => addr in
  let w := {| address := "EQconnected"; balance := "1000"; index := 0%Z |} in
  let p := {| isActive := Some true;
              hardwareWallets := Some [w];
              accounts := Some [("0-ton-mainnet", {| accountAddress := "EQconnected" |})];
              onCancel := false |} in
  let st' := clickAccounts lang formatBalance shortenAddress p [0%nat; 0%nat]
                           initialState in
  exists v,
    nth_error (accountViews (render lang formatBalance shortenAddress p st')) 0 = Some v
    /\ key v = "EQconnected"
    /\ onClick v = None
    /\ accountCurrent v = true
    /\ checkMarkActive v = true
    /\ clickAccount lang formatBalance shortenAddress p 0 st' = st'.
Proof.
  intros lang formatBalance shortenAddress w p st'.
  apply (connected_entry_is_fixed_active lang formatBalance shortenAddress
           p initialState [0%nat; 0%nat] 0%nat w).
  - reflexivity.
  - simpl. left. reflexivity.
Defined.

(** *** Further properties of the selector *)

Lemma filter_absent (i : Z) (l : list Z) :
  ~ In i l -> filter (fun id => negb (Z.eqb id i)) l = l.
Proof.
  induction l as [| a l IH]; intros Hout; [reflexivity |].
  simpl. destruct (Z.eqb_spec a i) as [-> | Hne]; simpl.
  - exfalso. apply Hout. now left.
  - f_equal. apply IH. intros Hin. apply Hout. now right.
Qed.

Lemma filter_present_length (i : Z) (l : list Z) :
  NoDup l -> In i l ->
  length (filter (fun id => negb (Z.eqb id i)) l) = pred (length l).
Proof.
  induction l as [| a l IH]; intros Hnd Hin; [contradiction |].
  apply NoDup_cons_iff in Hnd as [Ha Hnd]. simpl.
  destruct (Z.eqb_spec a i) as [-> | Hne]; simpl.
  - now rewrite filter_absent.
  - destruct Hin as [-> | Hin]; [congruence |].
    rewrite IH by assumption. destruct l; [contradiction | reflexivity].
Qed.

Lemma includes_toggle_same (i : Z) (st : State) :
  includes i (selectedAccountIndices (handleAccountToggle i st))
  = negb (includes i (selectedAccountIndices st)).
Proof.
  destruct (includes i (selectedAccountIndices st)) eqn:E; simpl.
  - apply includes_false_iff. rewrite toggle_In, E. tauto.
  - apply includes_In. rewrite toggle_In, E. now right.
Qed.

Lemma includes_toggle_other (i j : Z) (st : State) :
  i <> j ->
  includes i (selectedAccountIndices (handleAccountToggle j st))
  = includes i (selectedAccountIndices st).
Proof.
  intros Hne. apply eq_true_iff_eq. rewrite !includes_In, toggle_In.
  destruct (includes j (selectedAccountIndices st)); tauto.
Qed.

(** **** The order of the dispatched selection *)

Lemma toggles_snoc (idxs : list Z) (i : Z) (st : State) :
  toggles (idxs ++ [i]) st = handleAccountToggle i (toggles idxs st).
Proof. unfold toggles. now rewrite fold_left_app. Qed.

(** [nodup] keeps of each index its last occurrence: an index met again
    moves to the end. *)
Lemma nodup_snoc (i : Z) (l : list Z) :
  nodup Z.eq_dec (l ++ [i])
  = filter (fun id => negb (Z.eqb id i)) (nodup Z.eq_dec l) ++ [i].
Proof.
  induction l as [| a l IH]; [reflexivity |].
  simpl. destruct (in_dec Z.eq_dec a (l ++ [i])) as [Hin | Hout];
    destruct (in_dec Z.eq_dec a l) as [Hin' | Hout']; rewrite IH.
  - reflexivity.
  - apply in_app_or in Hin as [Hin | [<- | []]]; [contradiction |].
    simpl. now rewrite Z.eqb_refl.
  - exfalso. apply Hout, in_or_app. now left.
  - simpl. destruct (Z.eqb_spec a i) as [-> | Hne]; [| reflexivity].
    exfalso. apply Hout, in_or_app. right. now left.
Qed.

Lemma count_occ_snoc (i j : Z) (l : list Z) :
  count_occ Z.eq_dec (l ++ [i]) j
  = count_occ Z.eq_dec l j + (if Z.eqb i j then 1 else 0).
Proof.
  rewrite count_occ_app. simpl.
  destruct (Z.eq_dec i j) as [-> | Hne].
  - now rewrite Z.eqb_refl.
  - apply Z.eqb_neq in Hne. now rewrite Hne.
Qed.

Lemma filter_odd_snoc (i : Z) (l N : list Z) :
  filter (fun j => Nat.odd (count_occ Z.eq_dec (l ++ [i]) j))
         (filter (fun id => negb (Z.eqb id i)) N)
  = filter (fun id => negb (Z.eqb id i))
           (filter (fun j => Nat.odd (count_occ Z.eq_dec l j)) N).
Proof.
  induction N as [| a N IH]; [reflexivity |].
  simpl. destruct (Z.eqb_spec a i) as [-> | Hne]; simpl.
  - rewrite IH. destruct (Nat.odd (count_occ Z.eq_dec l i)); simpl;
      [now rewrite Z.eqb_refl | reflexivity].
  - rewrite count_occ_snoc.
    assert (Hia : Z.eqb i a = false) by (apply Z.eqb_neq; congruence).
    rewrite Hia, Nat.add_0_r, IH.
    destruct (Nat.odd (count_occ Z.eq_dec l a)); simpl; [| reflexivity].
    apply Z.eqb_neq in Hne. now rewrite Hne.
Qed.

Lemma includes_odd (i : Z) (l : list Z) :
  includes i (filter (fun j => Nat.odd (count_occ Z.eq_dec l j)) (nodup Z.eq_dec l))
  = Nat.odd (count_occ Z.eq_dec l i).
Proof.
  apply eq_true_iff_eq. rewrite includes_In, filter_In, nodup_In. split.
  - tauto.
  - intros Hodd. split; [| exact Hodd].
    apply (count_occ_In Z.eq_dec).
    destruct (count_occ Z.eq_dec l i); [discriminate Hodd | lia].
Qed.

(** The selection after a run of toggles: the indices toggled an odd number
    of times, each at the place of its last toggle. *)
Lemma toggles_selection (idxs : list Z) :
  selectedAccountIndices (toggles idxs initialState)
  = filter (fun i => Nat.odd (count_occ Z.eq_dec idxs i)) (nodup Z.eq_dec idxs).
Proof.
  induction idxs as [| i idxs IH] using rev_ind; [reflexivity |].
  rewrite toggles_snoc, nodup_snoc, filter_app, filter_odd_snoc.
  pose proof (includes_odd i idxs) as Hinc. rewrite <- IH in Hinc |- *.
  simpl. rewrite count_occ_snoc, Z.eqb_refl, Nat.add_1_r, Nat.odd_succ.
  rewrite <- Nat.negb_odd, <- Hinc.
  destruct (includes i (selectedAccountIndices (toggles idxs initialState))) eqn:E.
  - rewrite (toggle_present _ _ E). simpl. now rewrite app_nil_r.
  - rewrite (toggle_absent _ _ E). simpl.
    apply includes_false_iff in E. now rewrite (filter_absent i _ E).
Qed.

Section SubmitOrder.

Variable lang : string -> option nat -> string.
Variable formatBalance : string -> nat -> string.
Variable shortenAddress : string -> nat -> nat -> string.

(** C5, as the selector implements it.  After any run of toggles since the
    mount, the Add button's handler dispatches exactly one store action,
    [afterSelectHardwareWallets], and then calls [onClose].  The action
    carries the selection list itself: the indices toggled an odd number of
    times, in the order in which each was last selected ([nodup] keeps of
    each index its last occurrence).  So the selection set {1, 3} is
    dispatched as [1, 3] when 1 was selected before 3 and as [3, 1] when 3
    was selected first. *)
Theorem add_dispatches_selection_in_selection_order :
  forall (p : OwnProps) (idxs : list Z),
    let st := toggles idxs initialState in
    runHandler
      (buttonOnClick (addButton (render lang formatBalance shortenAddress p st))) st
    = (st,
       [AfterSelectHardwareWallets
          (filter (fun i => Nat.odd (count_occ Z.eq_dec idxs i)) (nodup Z.eq_dec idxs));
        CallOnClose])
    /\ handleAddLedgerWallets (toggles [1%Z; 3%Z] initialState)
       = [AfterSelectHardwareWallets [1%Z; 3%Z]; CallOnClose]
    /\ handleAddLedgerWallets (toggles [3%Z; 1%Z] initialState)
       = [AfterSelectHardwareWallets [3%Z; 1%Z]; CallOnClose]
    /\ handleAddLedgerWallets (toggles [1%Z; 3%Z; 1%Z; 1%Z] initialState)
       = [AfterSelectHardwareWallets [3%Z; 1%Z]; CallOnClose].
Proof.
  intros p idxs st. split; [| repeat split].
  simpl. unfold handleAddLedgerWallets. subst st.
  now rewrite toggles_selection.
Qed.

End SubmitOrder.

(** C5, as stated, fails: the selection set {1, 3} built by selecting 3 and
    then 1 is dispatched as [3, 1], not as [1, 3]. *)
Lemma add_payload_order_counterexample :
  ~ (forall st : State,
        (forall j : Z, In j (selectedAccountIndices st) <-> j = 1%Z \/ j = 3%Z) ->
        handleAddLedgerWallets st
        = [AfterSelectHardwareWallets [1%Z; 3%Z]; CallOnClose]).
Proof.
  intros Hclaim.
  specialize (Hclaim (toggles [3%Z; 1%Z] initialState)).
  assert (Hset : forall j : Z,
             In j (selectedAccountIndices (toggles [3%Z; 1%Z] initialState))
             <-> j = 1%Z \/ j = 3%Z).
  { intros j. simpl. intuition congruence. }
  specialize (Hclaim Hset). vm_compute in Hclaim. discriminate Hclaim.
Qed.

(** X1: toggling an index twice gives back the very same list when the index
    was not selected; when it was selected, the index ends up once, at the
    end of the list, behind the other entries in their old order. *)
Theorem toggle_twice_moves_index_to_end :
  forall (st : State) (i : Z),
    selectedAccountIndices (handleAccountToggle i (handleAccountToggle i st))
    = if includes i (selectedAccountIndices st)
      then filter (fun id => negb (Z.eqb id i)) (selectedAccountIndices st) ++ [i]
      else selectedAccountIndices st.
Proof.
  intros st i.
  pose proof (includes_toggle_same i st) as Hflip.
  destruct (includes i (selectedAccountIndices st)) eqn:E; simpl in Hflip.
  - rewrite (toggle_absent _ _ Hflip), (toggle_present _ _ E). reflexivity.
  - rewrite (toggle_present _ _ Hflip), (toggle_absent _ _ E).
    apply includes_false_iff in E.
    rewrite filter_app, (filter_absent i _ E). simpl.
    rewrite Z.eqb_refl. simpl. apply app_nil_r.
Qed.

(** X2: toggles of two indices commute as far as membership goes: whichever
    of the two is clicked first, the same indices end up selected. *)
Theorem toggles_commute_on_membership :
  forall (st : State) (i j k : Z),
    In k (selectedAccountIndices (handleAccountToggle i (handleAccountToggle j st)))
    <-> In k (selectedAccountIndices (handleAccountToggle j (handleAccountToggle i st))).
Proof.
  intros st i j k. destruct (Z.eq_dec i j) as [-> | Hne]; [reflexivity |].
  pose proof (toggle_In i k (handleAccountToggle j st)) as Hij.
  pose proof (toggle_In j k (handleAccountToggle i st)) as Hji.
  rewrite (includes_toggle_other i j st Hne) in Hij.
  rewrite (includes_toggle_other j i st (not_eq_sym Hne)) in Hji.
  pose proof (toggle_In j k st) as Hj.
  pose proof (toggle_In i k st) as Hi.
  destruct (includes i (selectedAccountIndices st)),
           (includes j (selectedAccountIndices st));
    destruct (Z.eq_dec k i) as [Hki | Hki], (Z.eq_dec k j) as [Hkj | Hkj];
    try (exfalso; congruence); tauto.
Qed.

(** X3: in every state reached from the empty selection, one more toggle
    changes the number of selected entries by exactly one: down when the
    index was selected, up when it was not. *)
Theorem toggle_changes_count_by_one :
  forall (idxs : list Z) (i : Z),
    let st := toggles idxs initialState in
    length (selectedAccountIndices (handleAccountToggle i st))
    = if includes i (selectedAccountIndices st)
      then pred (length (selectedAccountIndices st))
      else S (length (selectedAccountIndices st)).
Proof.
  intros idxs i st.
  assert (Hnd : NoDup (selectedAccountIndices st))
    by (apply toggles_NoDup; constructor).
  destruct (includes i (selectedAccountIndices st)) eqn:E.
  - rewrite (toggle_present _ _ E). apply filter_present_length; [exact Hnd |].
    now apply includes_In.
  - rewrite (toggle_absent _ _ E), length_app. simpl. lia.
Qed.

Section FurtherWithCollaborators.

Variable lang : string -> option nat -> string.
Variable formatBalance : string -> nat -> string.
Variable shortenAddress : string -> nat -> nat -> string.

#[local] Abbreviation render := (render lang formatBalance shortenAddress).
#[local] Abbreviation clickAccount := (clickAccount lang formatBalance shortenAddress).
#[local] Abbreviation clickAccounts := (clickAccounts lang formatBalance shortenAddress).

(** The candidates a click can toggle. *)
#[local] Abbreviation selectable p :=
  (fun i : Z =>
     exists w, In w (walletList p) /\ index w = i
               /\ includes_str (address w) (alreadyConnectedList p) = false).

Lemma clickAccount_unlinked (p : OwnProps) (pos : nat) (w : LedgerWalletInfo) (st : State) :
  nth_error (walletList p) pos = Some w ->
  includes_str (address w) (alreadyConnectedList p) = false ->
  clickAccount p pos st = handleAccountToggle (index w) st.
Proof.
  intros Hw Hfree. unfold LedgerSelectWallets.clickAccount.
  rewrite nth_accountViews, Hw. simpl. now rewrite Hfree.
Qed.

Lemma clickAccount_selectable (p : OwnProps) (pos : nat) (st : State) :
  Forall (selectable p) (selectedAccountIndices st) ->
  Forall (selectable p) (selectedAccountIndices (clickAccount p pos st)).
Proof.
  intros Hall. unfold LedgerSelectWallets.clickAccount.
  rewrite nth_accountViews.
  destruct (nth_error (walletList p) pos) as [w |] eqn:Hw; simpl; [| exact Hall].
  destruct (includes_str (address w) (alreadyConnectedList p)) eqn:Hfree; simpl;
    [exact Hall |].
  apply Forall_forall. intros k Hk. rewrite Forall_forall in Hall.
  apply toggle_In in Hk.
  destruct (includes (index w) (selectedAccountIndices st)).
  - apply Hall. tauto.
  - destruct Hk as [Hk | ->]; [now apply Hall |].
    exists w. repeat split; [| exact Hfree]. eapply nth_error_In. exact Hw.
Qed.

Lemma clickAccounts_selectable (p : OwnProps) (clicks : list nat) (st : State) :
  Forall (selectable p) (selectedAccountIndices st) ->
  Forall (selectable p) (selectedAccountIndices (clickAccounts p clicks st)).
Proof.
  revert st. induction clicks as [| pos clicks IH]; intros st Hall; simpl.
  - exact Hall.
  - apply IH. now apply clickAccount_selectable.
Qed.

(** X4: after any sequence of clicks since the mount, pressing Add dispatches
    one [afterSelectHardwareWallets] action and then closes; its payload
    holds no index twice, every index in it belongs to a candidate that is
    not linked yet, and the Add button is disabled exactly when the payload
    would be empty. *)
Theorem add_payload_after_clicks :
  forall (p : OwnProps) (clicks : list nat),
    let st := clickAccounts p clicks initialState in
    exists payload : list Z,
      runHandler (buttonOnClick (addButton (render p st))) st
      = (st, [AfterSelectHardwareWallets payload; CallOnClose])
      /\ NoDup payload
      /\ Forall (fun i => exists w, In w (walletList p) /\ index w = i
                          /\ includes_str (address w) (alreadyConnectedList p) = false)
                payload
      /\ isDisabled (addButton (render p st))
         = match payload with [] => true | _ :: _ => false end.
Proof.
  intros p clicks st. exists (selectedAccountIndices st).
  split; [reflexivity |].
  split; [apply clickAccounts_NoDup; constructor |].
  split; [apply clickAccounts_selectable; constructor |].
  simpl. unfold areAccountsSelected. now destruct (selectedAccountIndices st).
Qed.

(** X5: a click on an entry that is not linked flips that entry between the
    active and the inactive look (highlight and check mark together), and
    leaves every entry with another index as it was rendered before. *)
Theorem click_flips_unlinked_entry :
  forall (p : OwnProps) (st : State) (n : nat) (w : LedgerWalletInfo),
    nth_error (walletList p) n = Some w ->
    includes_str (address w) (alreadyConnectedList p) = false ->
    let st' := clickAccount p n st in
    exists before after : AccountView,
      nth_error (accountViews (render p st)) n = Some before
      /\ nth_error (accountViews (render p st')) n = Some after
      /\ onClick before = Some (HandleAccountToggle (index w))
      /\ accountCurrent after = negb (accountCurrent before)
      /\ checkMarkActive after = negb (checkMarkActive before)
      /\ (forall (m : nat) (u : LedgerWalletInfo),
            nth_error (walletList p) m = Some u ->
            index u <> index w ->
            nth_error (accountViews (render p st')) m
            = nth_error (accountViews (render p st)) m).
Proof.
  intros p st n w Hw Hfree st'. subst st'.
  rewrite (clickAccount_unlinked p n w st Hw Hfree).
  do 2 eexists. rewrite !nth_accountViews, Hw. cbn [option_map].
  split; [reflexivity |]. split; [reflexivity |].
  unfold renderAccount. cbn [onClick accountCurrent checkMarkActive].
  rewrite Hfree, includes_toggle_same. cbn [orb].
  repeat split.
  intros m u Hu Hne. rewrite !nth_accountViews, Hu. cbn [option_map].
  unfold renderAccount. now rewrite (includes_toggle_other _ _ st Hne).
Qed.

(** X6: the Cancel/Back button and the history-back gesture run the same
    callback: [onCancel] when the parent supplied it (the button then reads
    "Back"), [onClose] otherwise (the button reads "Cancel").  Neither changes
    the selection, and [onCancel] is never called when it was not supplied. *)
Theorem cancel_button_matches_history_back :
  forall (p : OwnProps) (st : State),
    buttonOnClick (cancelButton (render p st)) = onBack p
    /\ runHandler (onBack p) st
       = (st, [if onCancel p then CallOnCancel else CallOnClose])
    /\ label (cancelButton (render p st))
       = lang (if onCancel p then "Back" else "Cancel") None
    /\ isDisabled (cancelButton (render p st)) = false.
Proof.
  intros p st. unfold onBack. simpl.
  destruct (onCancel p); simpl; repeat split.
Qed.

(** X7: the list shows one entry per discovered candidate, in the order of
    discovery and keyed by address; an entry is highlighted exactly when its
    candidate is linked or its index is selected, and the check mark always
    agrees with the highlight.  The single- and two-entry layouts are picked
    by the number of candidates and never both. *)
Theorem entries_mirror_candidates :
  forall (p : OwnProps) (st : State),
    map key (accountViews (render p st)) = map address (walletList p)
    /\ map accountCurrent (accountViews (render p st))
       = map (fun w => includes_str (address w) (alreadyConnectedList p)
                       || includes (index w) (selectedAccountIndices st))
             (walletList p)
    /\ map checkMarkActive (accountViews (render p st))
       = map accountCurrent (accountViews (render p st))
    /\ accountsSingle (render p st) = Nat.eqb (length (accountViews (render p st))) 1
    /\ accountsTwo (render p st) = Nat.eqb (length (accountViews (render p st))) 2
    /\ accountsSingle (render p st) && accountsTwo (render p st) = false.
Proof.
  intros p st. simpl. unfold renderAccounts.
  rewrite !map_map, length_map. simpl.
  repeat split.
  destruct (walletList p) as [| a [| b [| c l]]]; reflexivity.
Qed.

End FurtherWithCollaborators.

Lemma click_flips_unlinked_entry_witness :
  let lang := fun (key : string) (_ : option nat) => key in
  let formatBalance := fun (amount : string) (_ : nat) => amount in
  let shortenAddress := fun (addr : string) (_ _ : nat) => addr in
  let w0 := {| address := "EQfirst"; balance := "1000"; index := 0%Z |} in
  let w1 := {| address := "EQsecond"; balance := "250"; index := 1%Z |} in
  let p := {| isActive := Some true;
              hardwareWallets := Some [w0; w1];
              accounts := None;
              onCancel := false |} in
  let st' := clickAccount lang formatBalance shortenAddress p 1 initialState in
  exists before after : AccountView,
    nth_error (accountViews (render lang formatBalance shortenAddress p initialState)) 1
    = Some before
    /\ nth_error (accountViews (render lang formatBalance shortenAddress p st')) 1
       = Some after
    /\ onClick before = Some (HandleAccountToggle 1%Z)
    /\ accountCurrent after = negb (accountCurrent before)
    /\ checkMarkActive after = negb (checkMarkActive before)
    /\ nth_error (accountViews (render lang formatBalance shortenAddress p st')) 0
       = nth_error (accountViews (render lang formatBalance shortenAddress p initialState)) 0.
Proof.
  intros lang formatBalance shortenAddress w0 w1 p st'.
  destruct (click_flips_unlinked_entry lang formatBalance shortenAddress
              p initialState 1%nat w1 eq_refl eq_refl)
    as (before & after & Hb & Ha & Hclick & Hcur & Hmark & Hothers).
  exists before, after.
  split; [exact Hb |]. split; [exact Ha |]. split; [exact Hclick |].
  split; [exact Hcur |]. split; [exact Hmark |].
  apply (Hothers 0%nat w0); [reflexivity | discriminate].
Defined.

End LedgerSelectWalletsFacts.

(** ** The dashboard screen *)

Module MainFacts.
Import Main.

Lemma swipeEffect_registered (env : Env) (p : StateProps) :
  IS_TOUCH_ENV env = true ->
  isPortrait env = true ->
  portraitContainerMounted env = true ->
  truthy_opt (currentTokenSlug p) = true ->
  swipeEffect env p = Some onSwipe.
Proof.
  intros Htouch Hportrait Hmounted Hslug. unfold swipeEffect.
  now rewrite Htouch, Hportrait, Hmounted, Hslug.
Qed.

(** C9: while a token is focused (touch environment, portrait layout, the
    container mounted), a swipe to the right dispatches [selectToken] with no
    slug and [setActiveContentTab] with the Assets tab and reports the gesture
    as handled; a swipe in any other direction, left included, dispatches
    nothing and reports it as not handled. *)
Theorem swipe_right_closes_focused_token :
  forall (env : Env) (p : StateProps) (direction : SwipeDirection),
    IS_TOUCH_ENV env = true ->
    isPortrait env = true ->
    portraitContainerMounted env = true ->
    truthy_opt (currentTokenSlug p) = true ->
    match direction with
    | Right =>
        deliverSwipe env p direction
        = Some ([SelectToken None; SetActiveContentTab Assets], true)
    | Left | Up | Down =>
        deliverSwipe env p direction = Some ([], false)
    end.
Proof.
  intros env p direction Htouch Hportrait Hmounted Hslug.
  unfold deliverSwipe.
  rewrite (swipeEffect_registered env p Htouch Hportrait Hmounted Hslug).
  destruct direction; reflexivity.
Qed.

Lemma swipe_right_closes_focused_token_witness :
  let env := {| IS_TOUCH_ENV := true; isPortrait := true;
                portraitContainerMounted := true |} in
  let p := {| currentTokenSlug := Some "toncoin" |} in
  deliverSwipe env p Right = Some ([SelectToken None; SetActiveContentTab Assets], true)
  /\ deliverSwipe env p Left = Some ([], false).
Proof.
  intros env p. split.
  - apply (swipe_right_closes_focused_token env p Right); reflexivity.
  - apply (swipe_right_closes_focused_token env p Left); reflexivity.
Defined.

(** *** Further properties of the dashboard *)

(** X8: without a registered listener no swipe does anything: outside a
    touch environment, in landscape, before the container is mounted, or
    with no token focused (no slug, or the empty one), the effect registers
    nothing and a swipe in any direction reaches no handler. *)
Theorem swipe_ignored_without_focused_token :
  forall (env : Env) (p : StateProps) (direction : SwipeDirection),
    IS_TOUCH_ENV env = false \/ isPortrait env = false
    \/ portraitContainerMounted env = false
    \/ currentTokenSlug p = None \/ currentTokenSlug p = Some "" ->
    deliverSwipe env p direction = None.
Proof.
  intros env p direction H. unfold deliverSwipe, swipeEffect.
  destruct H as [-> | [-> | [-> | [-> | ->]]]]; simpl;
    rewrite ?orb_true_r; reflexivity.
Qed.

Lemma swipe_ignored_without_focused_token_witness :
  deliverSwipe {| IS_TOUCH_ENV := true; isPortrait := false;
                  portraitContainerMounted := true |}
               {| currentTokenSlug := Some "toncoin" |} Right = None
  /\ deliverSwipe {| IS_TOUCH_ENV := true; isPortrait := true;
                     portraitContainerMounted := true |}
                  {| currentTokenSlug := None |} Right = None.
Proof.
  split.
  - apply swipe_ignored_without_focused_token. right. left. reflexivity.
  - apply swipe_ignored_without_focused_token. right. right. right. left. reflexivity.
Defined.

(** X9: whenever the swipe listener is registered a token is focused, and
    for that token the selection effect has dispatched exactly three actions:
    the Activity tab, and the focused slug as swap target and as transfer
    token.  The effect never dispatches [selectToken]. *)
Theorem swipe_listener_implies_token_effect :
  forall (env : Env) (p : StateProps),
    swipeEffect env p <> None ->
    exists slug : string,
      currentTokenSlug p = Some slug
      /\ slug <> ""
      /\ tokenSelectionEffect p
         = [SetActiveContentTab Activity; SetSwapTokenOut slug; ChangeTransferToken slug]
      /\ (forall cleared : option string, ~ In (SelectToken cleared) (tokenSelectionEffect p)).
Proof.
  intros env p Hreg. unfold swipeEffect in Hreg.
  destruct (truthy_opt (currentTokenSlug p)) eqn:Hslug;
    [| rewrite !orb_true_r in Hreg; congruence].
  unfold truthy_opt in Hslug. destruct (currentTokenSlug p) as [slug |] eqn:E;
    [| discriminate].
  exists slug. split; [reflexivity |].
  split; [now apply truthy_true_iff |].
  unfold tokenSelectionEffect. rewrite E, Hslug.
  split; [reflexivity |].
  intros cleared [H | [H | [H | []]]]; discriminate.
Qed.

Lemma swipe_listener_implies_token_effect_witness :
  exists slug : string,
    currentTokenSlug {| currentTokenSlug := Some "toncoin" |} = Some slug
    /\ slug <> ""
    /\ tokenSelectionEffect {| currentTokenSlug := Some "toncoin" |}
       = [SetActiveContentTab Activity; SetSwapTokenOut slug; ChangeTransferToken slug]
    /\ (forall cleared : option string,
          ~ In (SelectToken cleared)
               (tokenSelectionEffect {| currentTokenSlug := Some "toncoin" |})).
Proof.
  apply (swipe_listener_implies_token_effect
           {| IS_TOUCH_ENV := true; isPortrait := true;
              portraitContainerMounted := true |}
           {| currentTokenSlug := Some "toncoin" |}).
  discriminate.
Defined.

(** X10: each staking entry point does exactly one thing.  The Earn handler
    starts staking only when no staking is active and no unstake is
    requested, and opens the staking info otherwise; the staking-info handler
    asks the main surface to open the 'staking-info' sheet when running in a
    delegated sheet and dispatches the store action otherwise. *)
Theorem staking_entry_points :
  forall (p : StakingProps) (delegated : bool),
    length (handleEarnClick p) = 1
    /\ length (handleOpenStakingInfo delegated) = 1
    /\ (In StartStaking (handleEarnClick p)
        <-> isStakingActive p = false /\ flag (isUnstakeRequested p) = false)
    /\ (In OpenStakingInfo (handleEarnClick p)
        <-> isStakingActive p = true \/ flag (isUnstakeRequested p) = true)
    /\ (In (BottomSheetOpenInMain "staking-info") (handleOpenStakingInfo delegated)
        <-> delegated = true)
    /\ (In OpenStakingInfo (handleOpenStakingInfo delegated) <-> delegated = false).
Proof.
  intros p delegated. unfold handleEarnClick, handleOpenStakingInfo.
  destruct (isStakingActive p), (flag (isUnstakeRequested p)), delegated; simpl;
    repeat split; intros; try reflexivity;
    repeat match goal with
           | H : _ \/ _ |- _ => destruct H
           | H : _ /\ _ |- _ => destruct H
           | H : False |- _ => destruct H
           end;
    try discriminate; auto.
Qed.

(** X11: the sticky-card observer reads the first entry only.  It allows the
    sticky card exactly when the card does not intersect the viewport band and
    its left edge lies within [0, width); so it never allows it for a card of
    zero or negative width.  Called with no entry at all, either observer
    callback throws before setting anything. *)
Theorem sticky_card_observer_decision :
  forall (entry : ObserverEntry) (rest : list ObserverEntry),
    stickyCardObserver (entry :: rest) = stickyCardObserver [entry]
    /\ (stickyCardObserver (entry :: rest) = Some true
        <-> isIntersecting entry = false
            /\ QArith_base.Qle Qzero (left entry)
            /\ QArith_base.Qlt (left entry) (width entry))
    /\ (QArith_base.Qle (width entry) Qzero ->
        stickyCardObserver (entry :: rest) = Some false)
    /\ cardTopSideObserver (entry :: rest) = Some (negb (isIntersecting entry))
    /\ stickyCardObserver [] = None
    /\ cardTopSideObserver [] = None.
Proof.
  intros entry rest.
  assert (Hiff : stickyCardObserver (entry :: rest) = Some true
                 <-> isIntersecting entry = false
                     /\ QArith_base.Qle Qzero (left entry)
                     /\ QArith_base.Qlt (left entry) (width entry)).
  { unfold stickyCardObserver, Qltb. simpl Nat.ltb. cbn [andb].
    split.
    - intros H. injection H as H.
      apply andb_prop in H as [H Hlt]. apply andb_prop in H as [Hint Hle].
      apply negb_true_iff in Hint, Hlt.
      apply QArith_base.Qle_bool_iff in Hle.
      split; [exact Hint |]. split; [exact Hle |].
      apply QArith_base.Qnot_le_lt. intros Hc.
      apply QArith_base.Qle_bool_iff in Hc. congruence.
    - intros (Hint & Hle & Hlt). f_equal.
      rewrite Hint. apply QArith_base.Qle_bool_iff in Hle. rewrite Hle. simpl.
      apply negb_true_iff. apply not_true_is_false. intros Hc.
      apply QArith_base.Qle_bool_iff in Hc.
      exact (QArith_base.Qlt_not_le _ _ Hlt Hc). }
  split; [reflexivity |]. split; [exact Hiff |].
  split; [| repeat split].
  intros Hwidth.
  assert (Hsome : exists b, stickyCardObserver (entry :: rest) = Some b)
    by (eexists; reflexivity).
  destruct Hsome as [b Hb]. rewrite Hb. destruct b; [| reflexivity].
  exfalso. apply Hiff in Hb as (_ & Hle & Hlt).
  apply (QArith_base.Qlt_not_le _ _ Hlt).
  eapply QArith_base.Qle_trans; eassumption.
Qed.

Lemma sticky_card_observer_decision_witness :
  let collapsed := {| isIntersecting := false;
                      left := QArith_base.Qmake 0 1;
                      width := QArith_base.Qmake 0 1 |} in
  stickyCardObserver [collapsed] = Some false.
Proof.
  intros collapsed.
  destruct (sticky_card_observer_decision collapsed []) as (_ & _ & Hwidth & _).
  apply Hwidth. unfold QArith_base.Qle. simpl. lia.
Defined.

(** X12: the observers watch the card only while the screen is active, in
    portrait and has the card mounted; whenever the screen is inactive or in
    landscape the effect resets the sticky flag instead and watches nothing.
    The layout shows a sticky card only in portrait outside a delegated
    sheet, and then exactly when the transition says so. *)
Theorem sticky_card_lifecycle :
  forall (delegated portrait cardMounted sticky receive : bool)
         (isActive : option bool) (p : LayoutProps),
    observesCard (observingEffect portrait isActive cardMounted)
    = portrait && flag isActive && cardMounted
    /\ resetsStickyCard (observingEffect portrait isActive cardMounted)
       = negb (portrait && flag isActive)
    /\ resetsStickyCard (observingEffect portrait isActive cardMounted)
       && observesCard (observingEffect portrait isActive cardMounted) = false
    /\ countNodes isStickyCard (render delegated portrait p sticky receive)
       = if negb delegated && portrait && sticky then 1 else 0.
Proof.
  intros delegated portrait cardMounted sticky receive isActive p.
  unfold observingEffect, render, renderPortraitLayout, renderLandscapeLayout.
  destruct delegated, portrait, (flag isActive), cardMounted, sticky;
    repeat split.
Qed.

(** X13: inside a delegated sheet the screen renders its four modals and
    nothing else; otherwise it renders exactly one card, in front of the same
    four modals.  The Receive entry exists only in portrait, and the card is
    told to close its account selector exactly when the sticky card is
    shown (never in landscape). *)
Theorem layout_by_surface_and_orientation :
  forall (delegated portrait sticky receive : bool) (p : LayoutProps),
    let view := render delegated portrait p sticky receive in
    countNodes isModal view = 4
    /\ filter isModal view
       = [StakeModal; StakingInfoModal (isStakingInfoModalOpen p);
          ReceiveModal receive; UnstakingModal]
    /\ length view = (if delegated then 4 else if portrait && sticky then 9 else 8)
    /\ countNodes isCard view = (if delegated then 0 else 1)
    /\ countNodes isReceiveEntry view = (if negb delegated && portrait then 1 else 0)
    /\ forceCloseFlags view
       = (if delegated then [] else if portrait then [Some sticky] else [None]).
Proof.
  intros delegated portrait sticky receive p view. subst view.
  unfold render, renderPortraitLayout, renderLandscapeLayout.
  destruct delegated, portrait, sticky; repeat split.
Qed.

End MainFacts.

(** ** The password / PIN entry form *)

Module PasswordFormFacts.
Import PasswordForm.

Lemma count_app (f : Node -> bool) (a b : list Node) :
  count f (a ++ b) = count f a + count f b.
Proof. unfold count. now rewrite filter_app, length_app. Qed.

Lemma count_when (f : Node -> bool) (cond : bool) (n : Node) :
  count f (when cond n) = if cond && f n then 1 else 0.
Proof. unfold count, when. destruct cond; simpl; [destruct (f n) |]; reflexivity. Qed.

Lemma count_children (f : Node -> bool) (own : OwnProps) :
  (forall content, f (Children content) = false) ->
  count f (childrenNodes own) = 0.
Proof.
  intros Hf. unfold childrenNodes, count.
  destruct (children own); simpl; [rewrite Hf |]; reflexivity.
Qed.

Lemma count_help (f : Node -> bool) (own : OwnProps) :
  (forall text, f (HelpLabel text) = false) ->
  count f (match help own with
           | Some h => when (truthy h && negb (truthy_opt (error own))) (HelpLabel h)
           | None => []
           end) = 0.
Proof.
  intros Hf. destruct (help own); [| reflexivity].
  rewrite count_when, Hf. now rewrite andb_false_r.
Qed.

Ltac count_nodes :=
  repeat rewrite count_app;
  repeat rewrite count_when;
  repeat (rewrite count_children by reflexivity);
  repeat (rewrite count_help by reflexivity);
  repeat rewrite andb_false_r;
  simpl.

Section WithEnvironment.

Variable lang : string -> string.
Variable env : Env.

#[local] Abbreviation render := (render lang env).
#[local] Abbreviation handleBiometrics := (handleBiometrics lang).

(** How many PIN pads, password inputs and biometric prompts a view holds. *)
Lemma entry_ui_counts (own : OwnProps) (sp : StateProps) (st : State) :
  (count isPinPad (render own sp st),
   count isPasswordInput (render own sp st),
   count isBiometricPrompt (render own sp st))
  = if isNativeBiometricAuthSupported env then (1, 0, 0)
    else if isBiometricAuthEnabled sp then (0, 0, 1)
    else (0, 1, 0).
Proof.
  unfold PasswordForm.render.
  destruct (isNativeBiometricAuthSupported env).
  - unfold renderPinPad. count_nodes. reflexivity.
  - unfold renderPasswordField. count_nodes.
    destruct (isBiometricAuthEnabled sp); reflexivity.
Qed.

Lemma isEntryUi_count (view : list Node) :
  count isEntryUi view
  = count isPinPad view + count isPasswordInput view + count isBiometricPrompt view.
Proof.
  unfold count. induction view as [| n view IH]; [reflexivity |].
  simpl. destruct n; simpl; rewrite ?IH; lia.
Qed.

(** C3: whatever the props, the local state and the capability probes, the
    form renders exactly one element among the PIN pad, the password input
    and the biometric prompt; in particular for each auth-config variant the
    store can hold, and when no auth config is set. *)
Theorem exactly_one_entry_ui :
  forall (own : OwnProps) (sp : StateProps) (st : State),
    count isEntryUi (render own sp st) = 1
    /\ count isPinPad (render own sp st)
       + count isPasswordInput (render own sp st)
       + count isBiometricPrompt (render own sp st) = 1
    /\ (forall (numeric : option bool) (config : option AuthConfig),
          count isEntryUi
            (render own
               (mapStateToProps {| settingsIsPasswordNumeric := numeric;
                                   settingsAuthConfig := config |}) st) = 1).
Proof.
  assert (H : forall own sp st, count isEntryUi (render own sp st) = 1).
  { intros own sp st. rewrite isEntryUi_count.
    pose proof (entry_ui_counts own sp st) as E.
    destruct (isNativeBiometricAuthSupported env);
      [| destruct (isBiometricAuthEnabled sp)];
      injection E as -> -> ->; reflexivity. }
  intros own sp st. split; [apply H |].
  split; [rewrite <- isEntryUi_count; apply H |].
  intros numeric config. apply H.
Qed.


(** C7: on the password-field path the one submit button is disabled exactly
    when the entered password is empty, and the Enter-key listener (bound to
    the submit handler) is registered exactly when the password is not
    empty. *)
Theorem submit_disabled_iff_password_empty :
  forall (own : OwnProps) (sp : StateProps) (st : State),
    isNativeBiometricAuthSupported env = false ->
    isBiometricAuthEnabled sp = false ->
    exists disabled : bool,
      submitDisabledFlags (render own sp st) = [disabled]
      /\ (disabled = true <-> password st = "")
      /\ (enterKeyEffect st = Some {| onEnter := HHandleSubmit |} <-> disabled = false)
      /\ (enterKeyEffect st = None <-> disabled = true)
      /\ (enterKeyEffect st = Some {| onEnter := HHandleSubmit |} <-> password st <> "").
Proof.
  intros own sp st Hnative Hbio.
  exists (isSubmitDisabled st).
  assert (Hempty : isSubmitDisabled st = true <-> password st = "").
  { unfold isSubmitDisabled. destruct (password st); simpl; split; congruence. }
  split.
  - unfold PasswordForm.render, renderPasswordField, submitDisabledFlags.
    rewrite Hnative, Hbio. rewrite !flat_map_app. simpl.
    assert (Hc : flat_map (fun n => match n with
                                    | SubmitButton _ disabled _ _ => [disabled]
                                    | _ => []
                                    end) (childrenNodes own) = []).
    { unfold childrenNodes. destruct (children own); reflexivity. }
    rewrite Hc. simpl.
    destruct (truthy (localError st)), (onCancel own); simpl;
      destruct (help own) as [h |]; simpl;
      try destruct (truthy h && negb (truthy_opt (error own))); reflexivity.
  - split; [exact Hempty |].
    unfold enterKeyEffect.
    destruct (isSubmitDisabled st) eqn:E.
    + repeat split; try congruence.
      intros Hne. exfalso. apply Hne. now apply Hempty.
    + repeat split; try congruence.
      intros _ Hp. apply Hempty in Hp. congruence.
Qed.

End WithEnvironment.



Lemma submit_disabled_iff_password_empty_witness :
  let env0 := {| isNativeBiometricAuthSupported := false; isFaceIdAvailable := false;
                 isTouchIdAvailable := false; CAN_DELEGATE_BOTTOM_SHEET := false;
                 isSmallHeight := false; PIN_LENGTH := 4 |} in
  let own := {| isActive := true; isLoading := None; operationType := Some Transfer;
                cancelLabel := None; submitLabel := "Send"; stickerSize := None;
                placeholder := Some "Enter your password"; error := None; help := None;
                containerClassName := None; withCloseButton := None;
                children := None; onCancel := true |} in
  let sp := mapStateToProps {| settingsIsPasswordNumeric := None;
                               settingsAuthConfig := Some {| kind := KindPassword |} |} in
  let st := {| password := "hunter2"; localError := "" |} in
  exists disabled : bool,
    submitDisabledFlags (PasswordForm.render (fun s => s) env0 own sp st) = [disabled]
    /\ (disabled = true <-> password st = "")
    /\ (enterKeyEffect st = Some {| onEnter := HHandleSubmit |} <-> disabled = false)
    /\ (enterKeyEffect st = None <-> disabled = true)
    /\ (enterKeyEffect st = Some {| onEnter := HHandleSubmit |} <-> password st <> "").
Proof.
  intros env0 own sp st.
  apply (submit_disabled_iff_password_empty (fun s => s) env0 own sp st); reflexivity.
Defined.

Section RenderCycle.

Variable env : Env.

#[local] Abbreviation renders := (renders env).
#[local] Abbreviation commit := (commit env).

(** The props under which the auto-trigger effect lets the fetch start. *)
#[local] Abbreviation activeWithBiometrics :=
  (fun r : OwnProps * StateProps => isActive (fst r) && isBiometricAuthEnabled (snd r)).

Lemma autoTriggerEffect_delegated (own : OwnProps) (sp : StateProps) :
  CAN_DELEGATE_BOTTOM_SHEET env = true -> autoTriggerEffect env own sp = [].
Proof. intros H. unfold autoTriggerEffect. now rewrite H. Qed.

Lemma commit_delegated prev own sp st :
  CAN_DELEGATE_BOTTOM_SHEET env = true -> snd (commit prev own sp st) = [].
Proof.
  intros H. unfold PasswordForm.commit. simpl.
  rewrite (autoTriggerEffect_delegated own sp H). now destruct (depsChanged _ _ _).
Qed.

Lemma renders_cons prev r rs st :
  snd (renders prev (r :: rs) st)
  = snd (commit prev (fst r) (snd r) st)
    ++ snd (renders (Some r) rs (fst (commit prev (fst r) (snd r) st))).
Proof.
  cbn [PasswordForm.renders].
  destruct (commit prev (fst r) (snd r) st) as [st1 queued].
  cbn [fst snd].
  destruct (PasswordForm.renders env (Some r) rs st1) as [st2 later]. reflexivity.
Qed.

Lemma renders_delegated prev rs st :
  CAN_DELEGATE_BOTTOM_SHEET env = true -> snd (renders prev rs st) = [].
Proof.
  intros H. revert prev st. induction rs as [| r rs IH]; intros prev st.
  - reflexivity.
  - rewrite renders_cons, IH, app_nil_r. now apply commit_delegated.
Qed.

(** Re-rendering with the form still active and biometrics still enabled
    queues nothing. *)
Lemma renders_unchanged prev rs st :
  forallb activeWithBiometrics (prev :: rs) = true ->
  snd (renders (Some prev) rs st) = [].
Proof.
  revert prev st. induction rs as [| r rs IH]; intros prev st Hall.
  - reflexivity.
  - simpl in Hall. apply andb_prop in Hall as [Hprev Hrest].
    rewrite renders_cons, IH by exact Hrest.
    rewrite app_nil_r. apply andb_prop in Hrest as [Hr _].
    apply andb_prop in Hprev as [Hp1 Hp2]. apply andb_prop in Hr as [Hr1 Hr2].
    unfold PasswordForm.commit, depsChanged, autoTriggerDeps, pair_eqb. simpl.
    now rewrite Hp1, Hp2, Hr1, Hr2.
Qed.

(** The render on which the form turns active with biometrics enabled runs
    the auto-trigger effect. *)
Lemma commit_on_activation prev r st :
  match prev with
  | Some q => activeWithBiometrics q = false
  | None => True
  end ->
  activeWithBiometrics r = true ->
  snd (commit prev (fst r) (snd r) st) = autoTriggerEffect env (fst r) (snd r).
Proof.
  intros Hprev Hr. apply andb_prop in Hr as [Hr1 Hr2].
  unfold PasswordForm.commit, depsChanged, autoTriggerDeps, pair_eqb. simpl.
  destruct prev as [q |]; [| reflexivity]. simpl.
  rewrite Hr1, Hr2.
  apply andb_false_iff in Hprev as [-> | ->]; [reflexivity |].
  now rewrite andb_false_r.
Qed.

(** Renders during which the form is not active with biometrics enabled
    queue nothing. *)
Lemma commit_idle prev r st :
  activeWithBiometrics r = false ->
  snd (commit prev (fst r) (snd r) st) = [].
Proof.
  intros Hr. unfold PasswordForm.commit, autoTriggerEffect. simpl.
  destruct (depsChanged _ _ _); [| reflexivity].
  destruct (CAN_DELEGATE_BOTTOM_SHEET env); [reflexivity |]. simpl.
  apply andb_false_iff in Hr as [-> | ->]; [reflexivity |].
  now rewrite orb_true_r.
Qed.

Lemma renders_through_activation before prev r rs st :
  match prev with
  | Some q => activeWithBiometrics q = false
  | None => True
  end ->
  forallb (fun r' => negb (activeWithBiometrics r')) before = true ->
  forallb activeWithBiometrics (r :: rs) = true ->
  snd (renders prev (before ++ r :: rs) st) = autoTriggerEffect env (fst r) (snd r).
Proof.
  revert prev st. induction before as [| b before IH]; intros prev st Hprev Hbefore Hall.
  - simpl app. rewrite renders_cons, renders_unchanged by exact Hall.
    rewrite app_nil_r. apply commit_on_activation; [exact Hprev |].
    simpl in Hall. now apply andb_prop in Hall as [Hr _].
  - simpl in Hbefore. apply andb_prop in Hbefore as [Hb Hbefore].
    apply negb_true_iff in Hb.
    simpl app. rewrite renders_cons, (commit_idle prev b st Hb). simpl.
    apply IH; assumption.
Qed.

(** C8: take any run of renders, starting with the mount, in which the form
    is first not active with biometrics enabled (possibly for no render at
    all) and from some render on is.  Outside a delegated surface the effects
    of the whole run queue exactly one task: the biometric fetch, due after
    the appearance animation, 300 ms, and not before.  Inside a delegated
    surface no run of renders queues anything. *)
Theorem biometrics_auto_triggered_once :
  forall (before : list (OwnProps * StateProps)) (r : OwnProps * StateProps)
         (rs : list (OwnProps * StateProps)) (st : State),
    forallb (fun r' => negb (isActive (fst r') && isBiometricAuthEnabled (snd r')))
            before = true ->
    forallb (fun r' => isActive (fst r') && isBiometricAuthEnabled (snd r'))
            (r :: rs) = true ->
    snd (renders None (before ++ r :: rs) st)
    = (if CAN_DELEGATE_BOTTOM_SHEET env
       then []
       else [{| delayMs := 300; task := RunHandleBiometrics |}])
    /\ (forall elapsed : nat,
          hasFired elapsed {| delayMs := 300; task := RunHandleBiometrics |} = true
          <-> 300 <= elapsed)
    /\ (CAN_DELEGATE_BOTTOM_SHEET env = true ->
        forall prev rs' st', snd (renders prev rs' st') = []).
Proof.
  intros before r rs st Hbefore Hall. split; [| split].
  - rewrite (renders_through_activation before None r rs st I Hbefore Hall).
    simpl in Hall. apply andb_prop in Hall as [Hr _].
    apply andb_prop in Hr as [Hr1 Hr2].
    unfold autoTriggerEffect. rewrite Hr1, Hr2.
    now destruct (CAN_DELEGATE_BOTTOM_SHEET env).
  - intros elapsed. unfold hasFired. simpl delayMs. apply Nat.leb_le.
  - intros Hdelegated prev rs' st'. now apply renders_delegated.
Qed.

End RenderCycle.

Lemma biometrics_auto_triggered_once_witness :
  let host := {| isNativeBiometricAuthSupported := true; isFaceIdAvailable := true;
                 isTouchIdAvailable := false; CAN_DELEGATE_BOTTOM_SHEET := false;
                 isSmallHeight := false; PIN_LENGTH := 4 |} in
  let sheet := {| isNativeBiometricAuthSupported := true; isFaceIdAvailable := true;
                  isTouchIdAvailable := false; CAN_DELEGATE_BOTTOM_SHEET := true;
                  isSmallHeight := false; PIN_LENGTH := 4 |} in
  let own (active : bool) :=
    {| isActive := active; isLoading := None; operationType := Some Transfer;
       cancelLabel := None; submitLabel := "Send"; stickerSize := None;
       placeholder := None; error := None; help := None;
       containerClassName := None; withCloseButton := Some true;
       children := None; onCancel := true |} in
  let sp := mapStateToProps {| settingsIsPasswordNumeric := Some true;
                               settingsAuthConfig := Some {| kind := KindNativeBiometrics |} |} in
  snd (renders host None ([(own false, sp)] ++ (own true, sp) :: [(own true, sp)])
               initialState)
  = [{| delayMs := 300; task := RunHandleBiometrics |}]
  /\ snd (renders sheet None [(own false, sp); (own true, sp)] initialState) = [].
Proof.
  intros host sheet own sp. split.
  - apply (biometrics_auto_triggered_once host [(own false, sp)] (own true, sp)
             [(own true, sp)] initialState); reflexivity.
  - apply (biometrics_auto_triggered_once sheet [] (own true, sp) [] initialState);
      reflexivity.
Defined.

Section ErrorDisplay.

Variable lang : string -> string.
Variable env : Env.

#[local] Abbreviation render := (PasswordForm.render lang env).

Lemma flat_map_children {B : Type} (f : Node -> list B) (own : OwnProps) :
  (forall content, f (Children content) = []) ->
  flat_map f (childrenNodes own) = [].
Proof.
  intros Hf. unfold childrenNodes.
  destruct (children own); simpl; [rewrite Hf |]; reflexivity.
Qed.

Lemma flat_map_when {B : Type} (f : Node -> list B) (cond : bool) (n : Node) :
  flat_map f (when cond n) = if cond then f n else [].
Proof. destruct cond; simpl; [apply app_nil_r | reflexivity]. Qed.

Lemma flat_map_help {B : Type} (f : Node -> list B) (own : OwnProps) :
  (forall text, f (HelpLabel text) = []) ->
  flat_map f (match help own with
              | Some h => when (truthy h && negb (truthy_opt (error own))) (HelpLabel h)
              | None => []
              end) = [].
Proof.
  intros Hf. destruct (help own); [| reflexivity].
  rewrite flat_map_when, Hf. now destruct (_ && _).
Qed.

Ltac read_view :=
  repeat rewrite flat_map_app;
  repeat rewrite flat_map_when;
  repeat (rewrite flat_map_children by reflexivity);
  repeat (rewrite flat_map_help by reflexivity);
  simpl.

(** The local error left by the effects of a re-render: reset when the form
    has just turned active, kept otherwise. *)
Lemma commit_localError prev own sp st :
  localError (fst (commit env (Some prev) own sp st))
  = if negb (Bool.eqb (isActive (fst prev)) (isActive own)) && isActive own
    then ""
    else localError st.
Proof.
  unfold commit, depsChanged, activationDeps, activationEffect. simpl.
  destruct (negb (Bool.eqb (isActive (fst prev)) (isActive own))); [| reflexivity].
  destruct (isActive own); reflexivity.
Qed.

(** C1, as the form implements it: a re-render does not reset the local error
    because an external error is supplied; it resets it only when the form
    has just turned active.  With a non-empty external error, every rendered
    password input shows the localised external error in its error slot,
    whatever the local error is, while the local error, when not empty, stays
    on a line of its own; every rendered PIN pad is in the error state and,
    when the local error is empty, its title is the localised external
    error. *)
Theorem external_error_display :
  forall (prev : OwnProps * StateProps) (own : OwnProps) (sp : StateProps)
         (st : State) (e : string),
    error own = Some e ->
    e <> "" ->
    localError (fst (commit env (Some prev) own sp st))
    = (if negb (Bool.eqb (isActive (fst prev)) (isActive own)) && isActive own
       then ""
       else localError st)
    /\ inputErrors (render own sp st)
       = (if isNativeBiometricAuthSupported env || isBiometricAuthEnabled sp
          then []
          else [lang e])
    /\ errorLines (render own sp st)
       = (if isNativeBiometricAuthSupported env || negb (truthy (localError st))
          then []
          else [lang (localError st)])
    /\ pinPadErrorFlags (render own sp st)
       = (if isNativeBiometricAuthSupported env then [true] else [])
    /\ (localError st = "" ->
        pinPadTitles (render own sp st)
        = if isNativeBiometricAuthSupported env then [lang e] else []).
Proof.
  intros prev own sp st e He Hne.
  apply truthy_true_iff in Hne.
  split; [apply commit_localError |].
  unfold PasswordForm.render.
  destruct (isNativeBiometricAuthSupported env); simpl orb; cbv iota.
  - unfold renderPinPad, inputErrors, errorLines, pinPadErrorFlags, pinPadTitles.
    read_view.
    assert (Herr : truthy_opt (or_else (localError st) (error own)) = true).
    { unfold or_else. destruct (truthy (localError st)) eqn:El; simpl; [exact El |].
      rewrite He. exact Hne. }
    rewrite Herr.
    destruct (flag (withCloseButton own)), (isSmallHeight env); simpl;
      repeat split; intros Hl; rewrite Hl, He; reflexivity.
  - unfold renderPasswordField, inputErrors, errorLines, pinPadErrorFlags, pinPadTitles.
    read_view. rewrite He. simpl. rewrite Hne.
    destruct (isBiometricAuthEnabled sp), (truthy (localError st)), (onCancel own);
      simpl; repeat split.
Qed.

End ErrorDisplay.

Lemma external_error_display_witness :
  let field := {| isNativeBiometricAuthSupported := false; isFaceIdAvailable := false;
                  isTouchIdAvailable := false; CAN_DELEGATE_BOTTOM_SHEET := false;
                  isSmallHeight := false; PIN_LENGTH := 4 |} in
  let pad := {| isNativeBiometricAuthSupported := true; isFaceIdAvailable := false;
                isTouchIdAvailable := false; CAN_DELEGATE_BOTTOM_SHEET := false;
                isSmallHeight := false; PIN_LENGTH := 4 |} in
  let own (err : option string) :=
    {| isActive := true; isLoading := None; operationType := Some Transfer;
       cancelLabel := None; submitLabel := "Send"; stickerSize := None;
       placeholder := None; error := err; help := None;
       containerClassName := None; withCloseButton := None;
       children := None; onCancel := true |} in
  let sp := mapStateToProps {| settingsIsPasswordNumeric := None;
                               settingsAuthConfig := Some {| kind := KindPassword |} |} in
  let declined := {| password := "hunter2"; localError := "Declined" |} in
  let clean := {| password := "1234"; localError := "" |} in
  localError (fst (commit field (Some (own None, sp)) (own (Some "Wrong password")) sp
                          declined))
  = "Declined"
  /\ inputErrors (PasswordForm.render (fun s => s) field (own (Some "Wrong password")) sp
                                      declined)
     = ["Wrong password"]
  /\ errorLines (PasswordForm.render (fun s => s) field (own (Some "Wrong password")) sp
                                     declined)
     = ["Declined"]
  /\ pinPadTitles (PasswordForm.render (fun s => s) pad (own (Some "Wrong password")) sp
                                       clean)
     = ["Wrong password"].
Proof.
  intros field pad own sp declined clean.
  destruct (external_error_display (fun s => s) field (own None, sp)
              (own (Some "Wrong password")) sp declined "Wrong password"
              eq_refl ltac:(discriminate))
    as (Hstate & Hinput & Hline & _ & _).
  destruct (external_error_display (fun s => s) pad (own None, sp)
              (own (Some "Wrong password")) sp clean "Wrong password"
              eq_refl ltac:(discriminate))
    as (_ & _ & _ & _ & Htitle).
  split; [exact Hstate |]. split; [exact Hinput |]. split; [exact Hline |].
  apply Htitle. reflexivity.
Defined.

(** C1, as stated, fails: with the external error "Wrong password" arriving
    while the local error is "Declined" and native biometrics are supported,
    the local error is still "Declined" after the re-render and the PIN pad
    title reads "Declined". *)
Lemma external_error_priority_counterexample :
  ~ (forall (lang : string -> string) (env : Env) (prev : OwnProps * StateProps)
            (own : OwnProps) (sp : StateProps) (st : State) (e l : string),
        error own = Some e -> e <> "" ->
        localError st = l -> l <> "" ->
        localError (fst (commit env (Some prev) own sp st)) = ""
        /\ Forall (fun shown => shown = lang e)
             (pinPadTitles (PasswordForm.render lang env own sp st)
              ++ inputErrors (PasswordForm.render lang env own sp st)
              ++ errorLines (PasswordForm.render lang env own sp st))).
Proof.
  intros Hclaim.
  pose (env0 := {| isNativeBiometricAuthSupported := true; isFaceIdAvailable := true;
                   isTouchIdAvailable := false; CAN_DELEGATE_BOTTOM_SHEET := false;
                   isSmallHeight := false; PIN_LENGTH := 4 |}).
  pose (own := fun err : option string =>
    {| isActive := true; isLoading := None; operationType := Some Transfer;
       cancelLabel := None; submitLabel := "Send"; stickerSize := None;
       placeholder := None; error := err; help := None;
       containerClassName := None; withCloseButton := None;
       children := None; onCancel := true |}).
  pose (sp := mapStateToProps
                {| settingsIsPasswordNumeric := Some true;
                   settingsAuthConfig := Some {| kind := KindNativeBiometrics |} |}).
  pose (st := {| password := ""; localError := "Declined" |}).
  destruct (Hclaim (fun s => s) env0 (own None, sp) (own (Some "Wrong password")) sp st
              "Wrong password" "Declined" eq_refl ltac:(discriminate)
              eq_refl ltac:(discriminate)) as [Hcleared Hshown].
  vm_compute in Hcleared. discriminate Hcleared.
Qed.

(** *** Further properties of the form *)

Ltac read_nodes :=
  repeat rewrite flat_map_app;
  repeat rewrite flat_map_when;
  repeat (rewrite flat_map_children by reflexivity);
  repeat (rewrite flat_map_help by reflexivity);
  simpl.

Lemma renders_idle (env : Env) prev (rs : list (OwnProps * StateProps)) st :
  forallb (fun r => negb (isActive (fst r) && isBiometricAuthEnabled (snd r))) rs = true ->
  snd (renders env prev rs st) = [].
Proof.
  revert prev st. induction rs as [| r rs IH]; intros prev st Hall; [reflexivity |].
  simpl in Hall. apply andb_prop in Hall as [Hr Hall].
  apply negb_true_iff in Hr.
  rewrite renders_cons, (commit_idle env prev r st Hr). simpl. now apply IH.
Qed.

(** X14: the flags derived from the stored auth config are consistent:
    native biometrics enabled implies biometrics enabled, and biometrics are
    off exactly when there is no config or a password-only one.  Hence a PIN
    pad that offers the biometrics button always belongs to a form whose
    biometrics flag is on. *)
Theorem biometric_flags_consistent :
  forall (lang : string -> string) (env : Env) (settings : Settings)
         (own : OwnProps) (st : State),
    let sp := mapStateToProps settings in
    implb (isNativeBiometricAuthEnabled sp) (isBiometricAuthEnabled sp) = true
    /\ (isBiometricAuthEnabled sp = false
        <-> settingsAuthConfig settings = None
            \/ settingsAuthConfig settings = Some {| kind := KindPassword |})
    /\ authConfig sp = settingsAuthConfig settings
    /\ (In (Some HHandleBiometrics) (biometricsHandlers (render lang env own sp st))
        -> isBiometricAuthEnabled sp = true /\ authConfig sp <> None).
Proof.
  intros lang env [numeric config] own st sp. subst sp.
  unfold mapStateToProps. simpl.
  split; [destruct config as [[[]] |]; reflexivity |].
  split.
  { destruct config as [[[]] |]; simpl; split; intros H;
      try discriminate; try tauto; destruct H as [H | H]; discriminate. }
  split; [reflexivity |].
  unfold render. destruct (isNativeBiometricAuthSupported env).
  - unfold renderPinPad, biometricsHandlers. read_nodes.
    destruct config as [[[]] |]; simpl;
      destruct (flag (withCloseButton own)), (isSmallHeight env); simpl;
      intros [H | []]; try discriminate H; (split; [reflexivity | discriminate]).
  - unfold renderPasswordField, biometricsHandlers. read_nodes.
    destruct config as [[[]] |]; simpl;
      destruct (truthy (localError st)), (onCancel own); simpl; intros [].
Qed.

Lemma biometric_flags_consistent_witness :
  let env := {| isNativeBiometricAuthSupported := true; isFaceIdAvailable := true;
                isTouchIdAvailable := false; CAN_DELEGATE_BOTTOM_SHEET := false;
                isSmallHeight := false; PIN_LENGTH := 4 |} in
  let own := {| isActive := true; isLoading := None; operationType := None;
                cancelLabel := None; submitLabel := "Send"; stickerSize := None;
                placeholder := None; error := None; help := None;
                containerClassName := None; withCloseButton := None;
                children := None; onCancel := true |} in
  let sp := mapStateToProps {| settingsIsPasswordNumeric := Some true;
                               settingsAuthConfig := Some {| kind := KindNativeBiometrics |} |} in
  isBiometricAuthEnabled sp = true /\ authConfig sp <> None.
Proof.
  intros env own sp.
  destruct (biometric_flags_consistent (fun s => s) env
              {| settingsIsPasswordNumeric := Some true;
                 settingsAuthConfig := Some {| kind := KindNativeBiometrics |} |}
              own initialState) as (_ & _ & _ & Hbutton).
  apply Hbutton. simpl. left. reflexivity.
Defined.

(** X15: with no auth config, or a password-only one, no biometric fetch can
    start: both biometric flags are off, the PIN pad (if rendered) has no
    biometrics button, and no run of renders queues the auto-trigger. *)
Theorem password_only_never_fetches :
  forall (lang : string -> string) (env : Env) (numeric : option bool)
         (config : option AuthConfig) (own : OwnProps) (st : State)
         (prev : option (OwnProps * StateProps)) (owns : list OwnProps) (st0 : State),
    config = None \/ config = Some {| kind := KindPassword |} ->
    let sp := mapStateToProps {| settingsIsPasswordNumeric := numeric;
                                 settingsAuthConfig := config |} in
    isBiometricAuthEnabled sp = false
    /\ isNativeBiometricAuthEnabled sp = false
    /\ biometricsHandlers (render lang env own sp st)
       = (if isNativeBiometricAuthSupported env then [None] else [])
    /\ snd (renders env prev (map (fun o => (o, sp)) owns) st0) = [].
Proof.
  intros lang env numeric config own st prev owns st0 Hconfig sp.
  assert (Hbio : isBiometricAuthEnabled sp = false)
    by (destruct Hconfig as [-> | ->]; reflexivity).
  assert (Hnative : isNativeBiometricAuthEnabled sp = false)
    by (destruct Hconfig as [-> | ->]; reflexivity).
  clearbody sp.
  split; [exact Hbio |]. split; [exact Hnative |]. split.
  - unfold render. destruct (isNativeBiometricAuthSupported env).
    + unfold renderPinPad, biometricsHandlers. read_nodes. rewrite Hnative.
      destruct (flag (withCloseButton own)), (isSmallHeight env); reflexivity.
    + unfold renderPasswordField, biometricsHandlers. read_nodes. rewrite Hbio.
      destruct (truthy (localError st)), (onCancel own); reflexivity.
  - apply renders_idle. apply forallb_forall. intros r Hr.
    apply in_map_iff in Hr as [o [<- _]]. simpl. rewrite Hbio.
    now rewrite andb_false_r.
Qed.

Lemma password_only_never_fetches_witness :
  let env := {| isNativeBiometricAuthSupported := true; isFaceIdAvailable := true;
                isTouchIdAvailable := false; CAN_DELEGATE_BOTTOM_SHEET := false;
                isSmallHeight := false; PIN_LENGTH := 4 |} in
  let own (active : bool) :=
    {| isActive := active; isLoading := None; operationType := None;
       cancelLabel := None; submitLabel := "Send"; stickerSize := None;
       placeholder := None; error := None; help := None;
       containerClassName := None; withCloseButton := None;
       children := None; onCancel := true |} in
  let sp := mapStateToProps {| settingsIsPasswordNumeric := Some true;
                               settingsAuthConfig := Some {| kind := KindPassword |} |} in
  isBiometricAuthEnabled sp = false
  /\ isNativeBiometricAuthEnabled sp = false
  /\ biometricsHandlers (render (fun s => s) env (own true) sp initialState) = [None]
  /\ snd (renders env None (map (fun o => (o, sp)) [own false; own true]) initialState)
     = [].
Proof.
  intros env own sp.
  apply (password_only_never_fetches (fun s => s) env (Some true)
           (Some {| kind := KindPassword |}) (own true) initialState None
           [own false; own true] initialState).
  right. reflexivity.
Defined.

(** X16: when the form turns active (at the mount or after having been
    inactive) its effects bring it back to the empty state whatever was typed
    or shown before: no password, no local error, hence a disabled submit
    button and no Enter-key listener.  A render that does not turn the form
    active (a deactivation included) leaves the local state alone. *)
Theorem activation_resets_form :
  forall (lang : string -> string) (env : Env)
         (prev : option (OwnProps * StateProps))
         (own : OwnProps) (sp : StateProps) (st : State),
    isActive own = true ->
    match prev with
    | Some q => isActive (fst q) = false
    | None => True
    end ->
    let st' := fst (commit env prev own sp st) in
    st' = initialState
    /\ enterKeyEffect st' = None
    /\ submitDisabledFlags (render lang env own sp st')
       = (if isNativeBiometricAuthSupported env || isBiometricAuthEnabled sp
          then [] else [true])
    /\ errorLines (render lang env own sp st') = []
    /\ (forall (q : OwnProps * StateProps) (next : OwnProps) (kept : State),
          isActive next = false \/ isActive (fst q) = true ->
          fst (commit env (Some q) next sp kept) = kept).
Proof.
  intros lang env prev own sp st Hactive Hprev st'.
  assert (Hst' : st' = initialState).
  { subst st'. unfold commit, depsChanged, activationDeps, activationEffect. simpl.
    rewrite Hactive. destruct prev as [q |]; simpl; [rewrite Hprev |]; reflexivity. }
  rewrite Hst'. split; [reflexivity |]. split; [reflexivity |]. split; [| split].
  - unfold render. destruct (isNativeBiometricAuthSupported env); simpl orb; cbv iota.
    + unfold renderPinPad, submitDisabledFlags. read_nodes.
      destruct (flag (withCloseButton own)), (isSmallHeight env); reflexivity.
    + unfold renderPasswordField, submitDisabledFlags. read_nodes.
      destruct (isBiometricAuthEnabled sp), (onCancel own); reflexivity.
  - unfold render. destruct (isNativeBiometricAuthSupported env).
    + unfold renderPinPad, errorLines. read_nodes.
      destruct (flag (withCloseButton own)), (isSmallHeight env); reflexivity.
    + unfold renderPasswordField, errorLines. read_nodes.
      destruct (isBiometricAuthEnabled sp), (onCancel own); reflexivity.
  - intros q next kept Hcase.
    unfold commit, depsChanged, activationDeps, activationEffect. simpl.
    destruct Hcase as [-> | ->]; destruct (isActive (fst q)), (isActive next);
      try reflexivity; now destruct kept.
Qed.

Lemma activation_resets_form_witness :
  let env := {| isNativeBiometricAuthSupported := false; isFaceIdAvailable := false;
                isTouchIdAvailable := false; CAN_DELEGATE_BOTTOM_SHEET := false;
                isSmallHeight := false; PIN_LENGTH := 4 |} in
  let own (active : bool) :=
    {| isActive := active; isLoading := None; operationType := None;
       cancelLabel := None; submitLabel := "Send"; stickerSize := None;
       placeholder := None; error := None; help := None;
       containerClassName := None; withCloseButton := None;
       children := None; onCancel := true |} in
  let sp := mapStateToProps {| settingsIsPasswordNumeric := None;
                               settingsAuthConfig := None |} in
  let stale := {| password := "hunter2"; localError := "Declined" |} in
  fst (commit env (Some (own false, sp)) (own true) sp stale) = initialState
  /\ fst (commit env (Some (own true, sp)) (own false) sp stale) = stale.
Proof.
  intros env own sp stale.
  destruct (activation_resets_form (fun s => s) env (Some (own false, sp))
              (own true) sp stale eq_refl eq_refl)
    as (Hreset & _ & _ & _ & Hkept).
  split; [exact Hreset |].
  apply Hkept. left. reflexivity.
Defined.

(** X17: on the password-field path what is typed is what is submitted.
    After the input handler ran with a value, the input shows that value, the
    local error is untouched, the parent was told to drop its error exactly
    when it had supplied one, and the submit button of that render, unless
    the form is loading, carries a handler that calls [onSubmit] once with
    the typed value. *)
Theorem typed_password_is_submitted :
  forall (lang : string -> string) (env : Env) (own : OwnProps) (sp : StateProps)
         (st : State) (value : string) (outcome : GetPasswordOutcome)
         (submitted : CallOutcome),
    isNativeBiometricAuthSupported env = false ->
    isBiometricAuthEnabled sp = false ->
    let typed := runHandler lang own st HHandleInput value outcome submitted st in
    let st1 := snd (fst typed) in
    fst (fst typed) = Returned tt
    /\ snd typed = (if truthy_opt (error own) then [OnUpdate] else [])
    /\ localError st1 = localError st
    /\ shownValues (render lang env own sp st1) = [value]
    /\ submitHandlers (render lang env own sp st1)
       = [if flag (isLoading own) then None else Some HHandleSubmit]
    /\ runHandler lang own st1 HHandleSubmit "" outcome submitted st1
       = (Returned tt, st1, [OnSubmit value]).
Proof.
  intros lang env own sp st value outcome submitted Hnative Hbio typed st1.
  subst st1 typed. unfold runHandler, handleInput, handleSubmit, bind, setPassword,
    call, ret.
  destruct (truthy_opt (error own)) eqn:Herr; simpl;
    (split; [reflexivity |]; split; [reflexivity |]; split; [reflexivity |]);
    unfold render, renderPasswordField, shownValues, submitHandlers;
    rewrite Hnative, Hbio; read_nodes;
    destruct (truthy (localError st)), (flag (isLoading own)), (onCancel own); simpl;
    repeat split.
Qed.

Lemma typed_password_is_submitted_witness :
  let env := {| isNativeBiometricAuthSupported := false; isFaceIdAvailable := false;
                isTouchIdAvailable := false; CAN_DELEGATE_BOTTOM_SHEET := false;
                isSmallHeight := false; PIN_LENGTH := 4 |} in
  let own := {| isActive := true; isLoading := None; operationType := None;
                cancelLabel := None; submitLabel := "Send"; stickerSize := None;
                placeholder := None; error := Some "Wrong password"; help := None;
                containerClassName := None; withCloseButton := None;
                children := None; onCancel := true |} in
  let sp := mapStateToProps {| settingsIsPasswordNumeric := None;
                               settingsAuthConfig := None |} in
  let typed := runHandler (fun s => s) own initialState HHandleInput "hunter2"
                          (Resolves None) Returns initialState in
  fst (fst typed) = Returned tt
  /\ snd typed = [OnUpdate]
  /\ localError (snd (fst typed)) = ""
  /\ shownValues (render (fun s => s) env own sp (snd (fst typed))) = ["hunter2"]
  /\ submitHandlers (render (fun s => s) env own sp (snd (fst typed)))
     = [Some HHandleSubmit]
  /\ runHandler (fun s => s) own (snd (fst typed)) HHandleSubmit "" (Resolves None)
                Returns (snd (fst typed))
     = (Returned tt, snd (fst typed), [OnSubmit "hunter2"]).
Proof.
  intros env own sp typed.
  apply (typed_password_is_submitted (fun s => s) env own sp initialState "hunter2"
           (Resolves None) Returns); reflexivity.
Defined.


(** X19: the PIN pad is in the error state exactly when the local or the
    external error is non-empty, and its title then is the localised local
    error if there is one and the localised external error otherwise. *)
Theorem pin_pad_error_title :
  forall (lang : string -> string) (env : Env) (own : OwnProps) (sp : StateProps)
         (st : State),
    isNativeBiometricAuthSupported env = true ->
    truthy (localError st) || truthy_opt (error own) = true ->
    pinPadErrorFlags (render lang env own sp st) = [true]
    /\ pinPadTitles (render lang env own sp st)
       = [lang (if truthy (localError st)
                then localError st
                else match error own with Some e => e | None => "" end)]
    /\ (forall clean : State,
          localError clean = "" -> truthy_opt (error own) = false ->
          pinPadErrorFlags (render lang env own sp clean) = [false]).
Proof.
  intros lang env own sp st Hnative Herr.
  unfold render. rewrite Hnative.
  unfold renderPinPad, pinPadErrorFlags, pinPadTitles, or_else.
  split; [| split].
  - read_nodes.
    destruct (truthy (localError st)) eqn:El; simpl in *; rewrite ?El, ?Herr;
      destruct (flag (withCloseButton own)), (isSmallHeight env); reflexivity.
  - read_nodes.
    destruct (truthy (localError st)) eqn:El; simpl in *; rewrite ?El, ?Herr;
      destruct (flag (withCloseButton own)), (isSmallHeight env); reflexivity.
  - intros clean Hclean Hnone. read_nodes. rewrite Hclean. simpl. rewrite Hnone.
    destruct (flag (withCloseButton own)), (isSmallHeight env); reflexivity.
Qed.

Lemma pin_pad_error_title_witness :
  let env := {| isNativeBiometricAuthSupported := true; isFaceIdAvailable := true;
                isTouchIdAvailable := false; CAN_DELEGATE_BOTTOM_SHEET := false;
                isSmallHeight := false; PIN_LENGTH := 4 |} in
  let own (err : option string) :=
    {| isActive := true; isLoading := None; operationType := Some Swap;
       cancelLabel := None; submitLabel := "Send"; stickerSize := None;
       placeholder := None; error := err; help := None;
       containerClassName := None; withCloseButton := None;
       children := None; onCancel := true |} in
  let sp := mapStateToProps {| settingsIsPasswordNumeric := Some true;
                               settingsAuthConfig := Some {| kind := KindNativeBiometrics |} |} in
  let declined := {| password := ""; localError := "Declined" |} in
  pinPadErrorFlags (render (fun s => s) env (own (Some "Wrong password")) sp declined)
  = [true]
  /\ pinPadTitles (render (fun s => s) env (own (Some "Wrong password")) sp declined)
     = ["Declined"]
  /\ pinPadErrorFlags (render (fun s => s) env (own None) sp initialState) = [false].
Proof.
  intros env own sp declined.
  destruct (pin_pad_error_title (fun s => s) env (own (Some "Wrong password")) sp declined
              eq_refl eq_refl) as (Hflag & Htitle & _).
  destruct (pin_pad_error_title (fun s => s) env (own None) sp declined
              eq_refl eq_refl) as (_ & _ & Hclean).
  split; [exact Hflag |]. split; [exact Htitle |].
  apply Hclean; reflexivity.
Defined.

(** X20: with no error to show, the operation title of the PIN pad appears
    exactly once: above the pad on a screen of normal height, as the pad's
    own title on a small one, where it takes the place of the prompt.  The
    prompt is "Enter code" without native biometrics and otherwise names Face
    ID, else Touch ID, else biometrics in general; the pad carries the
    biometrics button exactly when native biometrics are enabled. *)
Theorem pin_pad_prompt :
  forall (lang : string -> string) (env : Env) (own : OwnProps) (sp : StateProps)
         (st : State),
    isNativeBiometricAuthSupported env = true ->
    localError st = "" ->
    truthy_opt (error own) = false ->
    let prompt :=
      if isNativeBiometricAuthEnabled sp
      then if isFaceIdAvailable env then "Enter code or use Face ID"
           else if isTouchIdAvailable env then "Enter code or use Touch ID"
           else "Enter code or use biometrics"
      else "Enter code" in
    headerTitles (render lang env own sp st)
    = (if isSmallHeight env then [] else [lang (getPinPadTitle own)])
    /\ pinPadTitles (render lang env own sp st)
       = [if isSmallHeight env then lang (getPinPadTitle own) else lang (lang prompt)]
    /\ biometricsHandlers (render lang env own sp st)
       = [if isNativeBiometricAuthEnabled sp then Some HHandleBiometrics else None]
    /\ shownValues (render lang env own sp st) = [password st].
Proof.
  intros lang env own sp st Hnative Hlocal Herr prompt. subst prompt.
  assert (Hnone : truthy_opt (or_else (localError st) (error own)) = false)
    by (unfold or_else; rewrite Hlocal; exact Herr).
  unfold render. rewrite Hnative.
  unfold renderPinPad, headerTitles, pinPadTitles, biometricsHandlers, shownValues.
  cbv zeta. rewrite Hnone.
  repeat split; read_nodes;
    destruct (flag (withCloseButton own)), (isSmallHeight env),
             (isNativeBiometricAuthEnabled sp); reflexivity.
Qed.

Lemma pin_pad_prompt_witness :
  let env := {| isNativeBiometricAuthSupported := true; isFaceIdAvailable := false;
                isTouchIdAvailable := true; CAN_DELEGATE_BOTTOM_SHEET := false;
                isSmallHeight := true; PIN_LENGTH := 4 |} in
  let own := {| isActive := true; isLoading := None; operationType := Some Staking;
                cancelLabel := None; submitLabel := "Send"; stickerSize := None;
                placeholder := None; error := None; help := None;
                containerClassName := None; withCloseButton := None;
                children := None; onCancel := true |} in
  let sp := mapStateToProps {| settingsIsPasswordNumeric := Some true;
                               settingsAuthConfig := Some {| kind := KindNativeBiometrics |} |} in
  let st := {| password := "12"; localError := "" |} in
  headerTitles (render (fun s => s) env own sp st) = []
  /\ pinPadTitles (render (fun s => s) env own sp st) = ["Confirm Staking"]
  /\ biometricsHandlers (render (fun s => s) env own sp st) = [Some HHandleBiometrics]
  /\ shownValues (render (fun s => s) env own sp st) = ["12"].
Proof.
  intros env own sp st.
  apply (pin_pad_prompt (fun s => s) env own sp st); reflexivity.
Defined.

(** X21: a submit button is rendered exactly when a password input is.
    The cancel button belongs to the password-field layout only and is
    rendered there exactly when the parent supplied [onCancel]; the PIN pad
    layout has a close button exactly when the parent asked for one, and that
    button has a handler only if [onCancel] was supplied. *)
Theorem buttons_follow_layout :
  forall (lang : string -> string) (env : Env) (own : OwnProps) (sp : StateProps)
         (st : State),
    count isSubmitButton (render lang env own sp st)
    = count isPasswordInput (render lang env own sp st)
    /\ count isCancelButton (render lang env own sp st)
       = (if negb (isNativeBiometricAuthSupported env) && onCancel own then 1 else 0)
    /\ count isCloseButton (render lang env own sp st)
       = (if isNativeBiometricAuthSupported env && flag (withCloseButton own)
          then 1 else 0)
    /\ count (fun n => isCloseButton n && isActionable n) (render lang env own sp st)
       = (if isNativeBiometricAuthSupported env && flag (withCloseButton own)
             && onCancel own
          then 1 else 0).
Proof.
  intros lang env own sp st. unfold render.
  destruct (isNativeBiometricAuthSupported env).
  - unfold renderPinPad. repeat split; count_nodes;
      destruct (flag (withCloseButton own)), (onCancel own); reflexivity.
  - unfold renderPasswordField. repeat split; count_nodes;
      destruct (isBiometricAuthEnabled sp), (onCancel own); reflexivity.
Qed.



(** X23: the help text is shown, as given and unlocalised, only on the
    password-field layout, only when it is not empty and only while the
    parent supplies no error: help and external error are never on screen
    together. *)
Theorem help_hidden_by_external_error :
  forall (lang : string -> string) (env : Env) (own : OwnProps) (sp : StateProps)
         (st : State),
    helpLabels (render lang env own sp st)
    = if isNativeBiometricAuthSupported env || truthy_opt (error own)
      then []
      else match help own with
           | Some text => if truthy text then [text] else []
           | None => []
           end.
Proof.
  intros lang env own sp st. unfold render.
  destruct (isNativeBiometricAuthSupported env); simpl orb; cbv iota.
  - unfold renderPinPad, helpLabels. read_nodes.
    destruct (flag (withCloseButton own)), (isSmallHeight env); reflexivity.
  - unfold renderPasswordField, helpLabels.
    repeat rewrite flat_map_app. repeat rewrite flat_map_when.
    rewrite (flat_map_children _ own) by reflexivity. simpl.
    destruct (isBiometricAuthEnabled sp), (truthy (localError st)), (onCancel own),
             (truthy_opt (error own)), (help own) as [text |]; simpl;
      try destruct (truthy text); reflexivity.
Qed.

End PasswordFormFacts.
